(** * ChatAnalyzer: the analysis-context pipeline of [ChatAnalyzer/index.js]

    A shallow embedding of the three request handlers of the Express
    service ([POST /upload], [POST /chat], [POST /ask]) and of the
    JavaScript operations they rely on, followed by the properties of
    the handlers.

    - JavaScript strings are sequences of UTF-16 code units.
    - JSON-like JavaScript values are an inductive type; objects keep
      their properties in an association list.
    - The handlers run in a state-and-exception monad whose state holds
      the events the handler produced (calls to the OCR engine and to
      the chat-completion API, responses sent) and the handler's mutable
      local variable [worker].
    - What the JavaScript engine computes and the repository does not
      define ([JSON.parse], number formatting, the text of engine
      errors) is an interface, [Runtime]; the answers of the external
      collaborators (file system, OCR engine, chat-completion API,
      clock) are a record, [World].  Every theorem holds for all
      runtimes and all worlds.
    - Calls to [console.log] and [console.error] have no effect on the
      responses or on the collaborators and are left out. *)

From Stdlib Require Import List String Ascii Bool Arith NArith ZArith QArith Lia
  DecimalString DecimalN.
Import ListNotations.

Set Implicit Arguments.
Set Warnings "-register-all,-notation-for-abbreviation".
Close Scope Q_scope.
Local Open Scope list_scope.

(* ================================================================= *)
(** ** JavaScript strings *)

Module JsString.

(** A string value is a finite sequence of 16-bit code units;
    [length] is the number of code units, as [String.prototype.length]. *)
Definition code_unit := N.
Definition t := list code_unit.

(** A source literal made of ASCII characters. *)
Definition js (s : string) : t :=
  List.map N_of_ascii (list_ascii_of_string s).

Fixpoint eqb (a b : t) : bool :=
  match a, b with
  | [], [] => true
  | x :: a', y :: b' => (x =? y)%N && eqb a' b'
  | _, _ => false
  end.

(** The double quote, which the literals below cannot contain. *)
Definition dq : t := [34%N].
Definition quoted (s : string) : t := dq ++ js s ++ dq.
(** Line terminator of a template literal (always LF once cooked). *)
Definition nl : t := [10%N].

(** WhiteSpace and LineTerminator code points of ECMA-262: the set
    stripped by [String.prototype.trim] and matched by the regular
    expression class [\s]. *)
Definition is_ws (c : code_unit) : bool :=
  ((9 <=? c) && (c <=? 13)          (* TAB LF VT FF CR *)
   || (c =? 32)                     (* SPACE *)
   || (c =? 160)                    (* NO-BREAK SPACE *)
   || (c =? 5760)                   (* U+1680 *)
   || ((8192 <=? c) && (c <=? 8202))  (* U+2000 .. U+200A *)
   || (c =? 8232) || (c =? 8233)    (* U+2028, U+2029 *)
   || (c =? 8239)                   (* U+202F *)
   || (c =? 8287)                   (* U+205F *)
   || (c =? 12288)                  (* U+3000 *)
   || (c =? 65279))%N.              (* U+FEFF *)

Fixpoint trimStart (s : t) : t :=
  match s with
  | [] => []
  | c :: r => if is_ws c then trimStart r else s
  end.

Definition trimEnd (s : t) : t := rev (trimStart (rev s)).

(** [s.trim()] *)
Definition trim (s : t) : t := trimEnd (trimStart s).

(** [s.split(/\s+/)].  The splitter of ECMA-262 scans [s] from the
    left; where the pattern matches (greedily, so on a whole run of
    white space) it emits the piece collected since the previous
    match and resumes after the run; the rest of the string, possibly
    empty, is the last piece.  [in_sep] tells that the scan is inside
    a run that was already matched; [piece] is the current piece,
    reversed.  The empty string yields the single piece [""], because
    the pattern does not match the empty string. *)
Fixpoint split_ws_aux (in_sep : bool) (piece : t) (s : t) : list t :=
  match s with
  | [] => [rev piece]
  | c :: r =>
      if is_ws c then
        if in_sep then split_ws_aux true piece r
        else rev piece :: split_ws_aux true [] r
      else split_ws_aux false (c :: piece) r
  end.

Definition split_ws (s : t) : list t := split_ws_aux false [] s.

(** [s.substring(0, n)] *)
Definition substring0 (n : nat) (s : t) : t := firstn n s.

(** The white-space-delimited tokens of a string, in the words of
    the specification: the maximal runs of code units that are not
    white space.  [cur] is the run being read, reversed. *)
Fixpoint tokens_aux (cur : t) (s : t) : list t :=
  match s with
  | [] => match cur with [] => [] | _ => [rev cur] end
  | c :: r =>
      if is_ws c then
        match cur with
        | [] => tokens_aux [] r
        | _ => rev cur :: tokens_aux [] r
        end
      else tokens_aux (c :: cur) r
  end.

Definition tokens (s : t) : list t := tokens_aux [] s.

(** Whether the last code unit of [s] is not white space; [b] when
    [s] is empty. *)
Fixpoint ends_in_text (b : bool) (s : t) : bool :=
  match s with
  | [] => b
  | c :: r => ends_in_text (negb (is_ws c)) r
  end.

End JsString.

Notation jsstring := JsString.t.
Notation js := JsString.js.

(* ================================================================= *)
(** ** JavaScript values *)

(** A JavaScript number: a finite value (a rational; both zeros are
    [Num 0]), an infinity, or NaN. *)
Inductive number : Type :=
| Num (q : Q)
| Infinity (negative : bool)
| NaN.

Definition number_of_nat (n : nat) : number := Num (inject_Z (Z.of_nat n)).

(** The values that JSON texts denote, and [undefined]. *)
Inductive value : Type :=
| VUndefined
| VNull
| VBool (b : bool)
| VNumber (n : number)
| VString (s : jsstring)
| VArray (elements : list value)
| VObject (properties : list (jsstring * value)).

(** An exception value: the [name] and [message] of an [Error]. *)
Record error : Type := Error { name : jsstring; message : jsstring }.

(** The run-time faults of the operations below. *)
Inductive fault : Type :=
| CannotReadProperty (base : value) (key : jsstring)
    (* property read on [undefined] or [null] *)
| NotAFunction (key : jsstring)
    (* call of a property that is not callable *)
| CannotConvertToPrimitive.
    (* an object whose own [toString] shadows the inherited one *)

(** What the engine provides. *)
Class Runtime : Type := {
  (** [JSON.parse] on a string: the parsed value, or the [SyntaxError]. *)
  JSON_parse : jsstring -> error + value;
  (** [Number.prototype.toString] *)
  Number_toString : number -> jsstring;
  (** the message the engine gives a [TypeError] *)
  fault_message : fault -> jsstring
}.

(* ================================================================= *)
(** ** Operations of the language on values *)

(** Own properties of an object, by name. *)
Fixpoint own_property (props : list (jsstring * value)) (key : jsstring)
  : option value :=
  match props with
  | [] => None
  | (k, v) :: rest =>
      if JsString.eqb k key then Some v else own_property rest key
  end.

(** [obj[key] = v] on an object under construction: an existing
    property keeps its place and takes the new value, a new one goes
    last. *)
Fixpoint set_property (props : list (jsstring * value)) (key : jsstring)
  (v : value) : list (jsstring * value) :=
  match props with
  | [] => [(key, v)]
  | (k, w) :: rest =>
      if JsString.eqb k key then (k, v) :: rest
      else (k, w) :: set_property rest key v
  end.

(** [ToBoolean] *)
Definition ToBoolean (v : value) : bool :=
  match v with
  | VUndefined | VNull => false
  | VBool b => b
  | VNumber (Num q) => negb (Qnum q =? 0)%Z
  | VNumber (Infinity _) => true
  | VNumber NaN => false
  | VString s => match s with [] => false | _ => true end
  | VArray _ | VObject _ => true
  end.

(** [a || b] and [a && b] on already evaluated operands (the operands
    of the handlers have no effects other than a possible exception,
    which the callers sequence by hand). *)
Definition js_or (a b : value) : value := if ToBoolean a then a else b.

(** A canonical array index: [0], or decimal digits without a leading
    zero. *)
Fixpoint digits_value (acc : N) (s : jsstring) : option N :=
  match s with
  | [] => Some acc
  | c :: r =>
      if ((48 <=? c) && (c <=? 57))%N
      then digits_value (acc * 10 + (c - 48))%N r
      else None
  end.

Definition array_index (key : jsstring) : option nat :=
  match key with
  | [] => None
  | c :: r =>
      if (c =? 48)%N
      then match r with [] => Some 0 | _ => None end
      else option_map N.to_nat (digits_value 0 key)
  end.

(** The decimal numeral of an index, a property name. *)
Definition index_key (i : nat) : jsstring :=
  js (DecimalString.NilEmpty.string_of_uint (Nat.to_uint i)).

Fixpoint indexed (i : nat) (l : list value) : list (jsstring * value) :=
  match l with
  | [] => []
  | x :: r => (index_key i, x) :: indexed (S i) r
  end.

(** The own enumerable properties that an object spread [{...v}]
    copies: those of an object, the elements of an array, the code
    units of a string, nothing for the other values. *)
Definition spread (v : value) : list (jsstring * value) :=
  match v with
  | VObject props => props
  | VArray l => indexed 0 l
  | VString s => indexed 0 (List.map (fun c => VString [c]) s)
  | _ => []
  end.

(** What a value becomes when it is sent as JSON and read back
    ([JSON.parse(JSON.stringify(v))], as [res.json] and [express.json]
    do between the service and its client): properties whose value is
    [undefined] are dropped, [undefined] elements and the numbers that
    are not finite become [null], everything else is kept. *)
Fixpoint over_the_wire (v : value) : value :=
  match v with
  | VNumber (Num _) => v
  | VNumber _ => VNull
  | VArray l =>
      VArray (List.map (fun x => match x with
                                 | VUndefined => VNull
                                 | _ => over_the_wire x
                                 end) l)
  | VObject props =>
      VObject
        ((fix members (ps : list (jsstring * value)) : list (jsstring * value) :=
            match ps with
            | [] => []
            | (k, VUndefined) :: rest => members rest
            | (k, x) :: rest => (k, over_the_wire x) :: members rest
            end) props)
  | _ => v
  end.

Section Operations.
Context {RT : Runtime}.

Definition TypeError (f : fault) : error :=
  Error (js "TypeError") (fault_message f).

(** [base.key], a property read.  Values built from JSON texts have
    no accessor and no callable property; the properties they
    inherit from their prototypes are methods, which are not values
    of this model: a name must be read with [Get] only if it is not
    inherited, as are all the names the handlers read
    ([question], [analysisContext], [textExtraction], [analysis],
    [raw], [summary], [sentiment], [topics], [language],
    [wordCount], [characterCount]).  Methods are called through
    the dedicated operations below. *)
Definition Get (base : value) (key : jsstring) : error + value :=
  match base with
  | VUndefined | VNull => inl (TypeError (CannotReadProperty base key))
  | VObject props =>
      inr (match own_property props key with
           | Some v => v
           | None => VUndefined
           end)
  | VArray l =>
      inr (match array_index key with
           | Some i => nth i l VUndefined
           | None =>
               if JsString.eqb key (js "length")
               then VNumber (number_of_nat (List.length l))
               else VUndefined
           end)
  | VString s =>
      inr (match array_index key with
           | Some i =>
               match nth_error s i with
               | Some c => VString [c]
               | None => VUndefined
               end
           | None =>
               if JsString.eqb key (js "length")
               then VNumber (number_of_nat (List.length s))
               else VUndefined
           end)
  | VBool _ | VNumber _ => inr VUndefined
  end.

(** [Array.prototype.join]: the elements converted by [conv] and
    separated by [sep]; [undefined] and [null] elements contribute
    the empty string. *)
Definition join_with (conv : value -> error + jsstring) (sep : jsstring)
  : list value -> error + jsstring :=
  let elem (x : value) : error + jsstring :=
    match x with
    | VUndefined | VNull => inr []
    | _ => conv x
    end in
  fix go (l : list value) : error + jsstring :=
    match l with
    | [] => inr []
    | [x] => elem x
    | x :: (_ :: _) as rest =>
        match elem x with
        | inl e => inl e
        | inr s =>
            match go rest with
            | inl e => inl e
            | inr t => inr (s ++ sep ++ t)
            end
        end
    end.

(** [ToString], as applied to the substitutions of a template
    literal.  An array converts through [join(",")].  An object
    converts through the inherited [toString], unless an own
    property of that name (never callable here) shadows it, in which
    case the conversion throws. *)
Fixpoint ToString (v : value) : error + jsstring :=
  match v with
  | VUndefined => inr (js "undefined")
  | VNull => inr (js "null")
  | VBool true => inr (js "true")
  | VBool false => inr (js "false")
  | VNumber n => inr (Number_toString n)
  | VString s => inr s
  | VArray l => join_with ToString (js ",") l
  | VObject props =>
      match own_property props (js "toString") with
      | Some _ => inl (TypeError CannotConvertToPrimitive)
      | None => inr (js "[object Object]")
      end
  end.

(** [base.join(sep)]: only arrays have a callable [join]. *)
Definition call_join (base : value) (sep : jsstring) : error + jsstring :=
  match base with
  | VUndefined | VNull =>
      inl (TypeError (CannotReadProperty base (js "join")))
  | VArray l => join_with ToString sep l
  | _ => inl (TypeError (NotAFunction (js "join")))
  end.

End Operations.

(* ================================================================= *)
(** ** Effects: events, the handler state, the monad *)

(** What a handler does that is visible outside it. *)
Inductive event : Type :=
| FsAccess (path : jsstring)           (* [fs.promises.access(path, R_OK)] *)
| CreateWorker (lang : jsstring) (resolved : bool)
    (* [createWorker(lang)], and whether it gave a worker *)
| Recognize (path : jsstring)          (* [worker.recognize(path)] *)
| Terminate                            (* [worker.terminate()] *)
| ChatCompletion (request : value)     (* [openai.chat.completions.create] *)
| Respond (status : nat) (body : value). (* [res.status(n).json(body)] *)

(** The state a handler threads: the events so far, oldest first, and
    the local variable [worker] of the upload handler ([false] is
    [null]). *)
Record state : Type := State { events : list event; worker : bool }.

Definition initial : state := State [] false.

(** The answers of the collaborators during one request. *)
Record World : Type := {
  (** [new Date().toISOString()] *)
  now : jsstring;
  (** the rejection of [fs.promises.access], if it rejects *)
  fs_access : jsstring -> option error;
  (** the rejection of [createWorker], if it rejects *)
  createWorker : jsstring -> option error;
  (** [data.text] of the recognition result, or the rejection *)
  recognize : jsstring -> error + jsstring;
  (** [completion.choices[0].message.content] for the given request
      (a string by the API's contract, any value here), or what was
      thrown: the rejection of the call, or the [TypeError] of reading
      that path in a completion without it *)
  chat_completion : value -> error + value
}.

(** Computations that may throw. *)
Definition bindE {A B : Type} (r : error + A) (k : A -> error + B)
  : error + B :=
  match r with
  | inl e => inl e
  | inr a => k a
  end.

Notation "'let*' x ':=' r 'in' k" := (bindE r (fun x => k))
  (at level 10, x name, r at level 100, k at level 200).

Module Handler.

(** A computation reads and extends the state and either returns a
    value or throws. *)
Definition M (A : Type) : Type := state -> state * (error + A).

Definition ret {A : Type} (a : A) : M A := fun s => (s, inr a).

Definition throw {A : Type} (e : error) : M A := fun s => (s, inl e).

Definition bind {A B : Type} (m : M A) (k : A -> M B) : M B :=
  fun s =>
    match m s with
    | (s', inr a) => k a s'
    | (s', inl e) => (s', inl e)
    end.

Definition lift {A : Type} (r : error + A) : M A := fun s => (s, r).

(** [try { m } catch (e) { h e }] *)
Definition try_catch {A : Type} (m : M A) (h : error -> M A) : M A :=
  fun s =>
    match m s with
    | (s', inl e) => h e s'
    | (s', inr a) => (s', inr a)
    end.

(** [try { m } finally { f }]: [f] runs however [m] ends; the outcome
    is that of [m] unless [f] itself throws. *)
Definition try_finally {A : Type} (m : M A) (f : M unit) : M A :=
  fun s =>
    match m s with
    | (s', r) =>
        match f s' with
        | (s'', inl e) => (s'', inl e)
        | (s'', inr _) => (s'', r)
        end
    end.

Definition emit (e : event) : M unit :=
  fun s => (State (events s ++ [e]) (worker s), inr tt).

Definition get_worker : M bool := fun s => (s, inr (worker s)).

Definition set_worker (b : bool) : M unit :=
  fun s => (State (events s) b, inr tt).

(** The state a handler leaves when started on a fresh request. *)
Definition run {A : Type} (m : M A) : state := fst (m initial).

End Handler.

Import Handler.

Notation "x <- m ;; k" := (bind m (fun x => k))
  (at level 61, m at next level, right associativity).
Notation "m ;;; k" := (bind m (fun _ => k))
  (at level 61, right associativity).

(** Observations on the final state. *)
Definition responses (s : state) : list (nat * value) :=
  flat_map (fun e => match e with Respond n b => [(n, b)] | _ => [] end)
           (events s).

Definition terminations (s : state) : nat :=
  List.length (filter (fun e => match e with Terminate => true | _ => false end)
                 (events s)).

Definition workers_created (s : state) : nat :=
  List.length (filter (fun e => match e with CreateWorker _ ok => ok | _ => false end)
                 (events s)).

Definition llm_calls (s : state) : nat :=
  List.length (filter (fun e => match e with ChatCompletion _ => true | _ => false end)
                 (events s)).

(** Object literals. *)
Definition str (s : string) : value := VString (js s).
Definition prop (k : string) (v : value) : jsstring * value := (js k, v).

(* ================================================================= *)
(** ** The handlers *)

(** [req.file], as multer leaves it. *)
Record File : Type := {
  originalname : jsstring;
  path : jsstring;
  size : nat
}.

(** The error multer hands to the callback: one of its own
    ([err instanceof multer.MulterError]) or any other. *)
Inductive upload_error : Type :=
| MulterError (e : error)
| OtherError (e : error).

Definition No_text_message : string :=
  "No text could be extracted from the image".

Definition Not_available : value := str "Not available".

Section Handlers.
Context {RT : Runtime}.
Variable w : World.

Import JsString.

(** *** Calls to the collaborators *)

Definition access (p : jsstring) : M unit :=
  emit (FsAccess p) ;;;
  match fs_access w p with
  | Some e => throw e
  | None => ret tt
  end.

(** [worker = await createWorker(lang)]: the assignment happens only
    if the call resolves. *)
Definition create_worker (lang : jsstring) : M unit :=
  match createWorker w lang with
  | Some e => emit (CreateWorker lang false) ;;; throw e
  | None => emit (CreateWorker lang true) ;;; set_worker true
  end.

Definition worker_recognize (p : jsstring) : M jsstring :=
  emit (Recognize p) ;;;
  lift (recognize w p).

(** [await worker.terminate()]; the engine's [terminate] resolves. *)
Definition worker_terminate : M unit := emit Terminate.

Definition create_completion (request : value) : M value :=
  emit (ChatCompletion request) ;;;
  lift (chat_completion w request).

Definition respond (status : nat) (body : value) : M unit :=
  emit (Respond status body).

Definition timestamp : value := VString (now w).

(** [JSON.parse(content)]: the argument is converted to a string
    first. *)
Definition parse_content (content : value) : error + value :=
  let* text := ToString content in
  JSON_parse text.

Definition chat_request (system : jsstring) (user : value)
  (json_mode : bool) : value :=
  VObject
    ([ prop "messages"
         (VArray
            [ VObject [ prop "role" (str "system");
                        prop "content" (VString system) ];
              VObject [ prop "role" (str "user");
                        prop "content" user ] ]);
       prop "model" (str "gpt-3.5-turbo") ]
     ++ (if json_mode
         then [ prop "response_format"
                  (VObject [ prop "type" (str "json_object") ]) ]
         else [])).

(** *** POST /upload *)

Definition upload_system_prompt : jsstring :=
  js "You are an expert text analyzer. Analyze the provided text and return a JSON response with the following structure:" ++ nl ++
  js "            {" ++ nl ++
  js "              " ++ dq ++ js "summary" ++ dq ++ js ": " ++ dq ++ js "A brief summary of the text" ++ dq ++ js "," ++ nl ++
  js "              " ++ dq ++ js "keyPoints" ++ dq ++ js ": [" ++ dq ++ js "Array of key points extracted" ++ dq ++ js "]," ++ nl ++
  js "              " ++ dq ++ js "sentiment" ++ dq ++ js ": " ++ dq ++ js "Overall sentiment (positive/negative/neutral)" ++ dq ++ js "," ++ nl ++
  js "              " ++ dq ++ js "topics" ++ dq ++ js ": [" ++ dq ++ js "Main topics identified" ++ dq ++ js "]," ++ nl ++
  js "              " ++ dq ++ js "language" ++ dq ++ js ": " ++ dq ++ js "Primary language detected" ++ dq ++ js "," ++ nl ++
  js "              " ++ dq ++ js "confidence" ++ dq ++ js ": " ++ dq ++ js "High/Medium/Low based on text clarity" ++ dq ++ nl ++
  js "            }".

(** [extractedText.trim().split(/\s+/).length] *)
Definition wordCount (extractedText : jsstring) : nat :=
  List.length (split_ws (trim extractedText)).

(** [extractedText.length] *)
Definition characterCount (extractedText : jsstring) : nat :=
  List.length extractedText.

Definition textExtraction_of (extractedText : jsstring) : value :=
  VObject [ prop "raw" (VString extractedText);
            prop "wordCount" (VNumber (number_of_nat (wordCount extractedText)));
            prop "characterCount"
              (VNumber (number_of_nat (characterCount extractedText))) ].

(** The [data] member of the success payload. *)
Definition upload_data (file : File) (extractedText : jsstring)
  (analysis : value) : value :=
  VObject
    [ prop "file"
        (VObject [ prop "name" (VString (originalname file));
                   prop "path" (VString (path file));
                   prop "size" (VNumber (number_of_nat (size file))) ]);
      prop "textExtraction" (textExtraction_of extractedText);
      prop "analysis"
        (VObject (set_property (spread analysis) (js "timestamp") timestamp)) ].

Definition upload_success (file : File) (extractedText : jsstring)
  (analysis : value) : value :=
  VObject [ prop "status" (str "success");
            prop "message" (str "Image processed successfully");
            prop "data" (upload_data file extractedText analysis) ].

Definition no_text_body : value :=
  VObject [ prop "status" (str "error");
            prop "message" (str No_text_message) ].

(** The [error] member of the bodies that describe an exception. *)
Definition error_details (type details : value) : value :=
  VObject [ prop "type" type;
            prop "details" details;
            prop "timestamp" timestamp ].

Definition processing_error_body (e : error) : value :=
  VObject [ prop "status" (str "error");
            prop "message" (str "Error processing image");
            prop "error"
              (error_details (VString (name e)) (VString (message e))) ].

(** The [try] block of the callback. *)
Definition upload_try (file : File) : M unit :=
  access (path file) ;;;
  create_worker (js "eng") ;;;
  text <- worker_recognize (path file) ;;
  if negb (ToBoolean (VString (trim text))) then
    worker_terminate ;;;
    respond 400 no_text_body
  else
    let extractedText := text in
    content <- create_completion
                 (chat_request upload_system_prompt (VString extractedText) true) ;;
    analysis <- lift (parse_content content) ;;
    respond 200 (upload_success file extractedText analysis).

Definition upload_catch (e : error) : M unit :=
  respond 500 (processing_error_body e).

Definition upload_finally : M unit :=
  wk <- get_worker ;;
  if wk then worker_terminate else ret tt.

(** The callback given to multer's [upload], with the error multer
    reports and [req.file]. *)
Definition upload_handler (err : option upload_error) (file : option File)
  : M unit :=
  match err with
  | Some (MulterError e) =>
      respond 400
        (VObject [ prop "status" (str "error");
                   prop "message" (str "File upload error");
                   prop "error"
                     (error_details (str "MulterError") (VString (message e))) ])
  | Some (OtherError e) =>
      respond 400
        (VObject [ prop "status" (str "error");
                   prop "message" (VString (message e));
                   prop "error"
                     (error_details (VString (name e)) (VString (message e))) ])
  | None =>
      match file with
      | None =>
          respond 400
            (VObject [ prop "status" (str "error");
                       prop "message" (str "No image file provided") ])
      | Some f =>
          set_worker false ;;;
          try_finally (try_catch (upload_try f) upload_catch) upload_finally
      end
  end.

(** The events of the callback up to the end of the recognition, when
    the file is readable and the worker is created. *)
Definition upload_events_before_text (f : File) : list event :=
  [ FsAccess (path f); CreateWorker (js "eng") true; Recognize (path f) ].

(** *** POST /chat *)

Definition missing_fields_body : value :=
  VObject [ prop "status" (str "error");
            prop "message" (str "Question and analysis context are required") ].

(** The template literal of the system message.  A substitution is
    evaluated and converted to a string before the next one is
    evaluated. *)
Definition chat_system_prompt (analysisContext : value) : error + jsstring :=
  let* textExtraction := Get analysisContext (js "textExtraction") in
  let* raw := Get textExtraction (js "raw") in
  let* s_raw := ToString raw in
  let* analysis := Get analysisContext (js "analysis") in
  let* summary := Get analysis (js "summary") in
  let* s_summary := ToString summary in
  let* analysis := Get analysisContext (js "analysis") in
  let* sentiment := Get analysis (js "sentiment") in
  let* s_sentiment := ToString sentiment in
  let* analysis := Get analysisContext (js "analysis") in
  let* topics := Get analysis (js "topics") in
  let* s_topics := call_join topics (js ", ") in
  let* analysis := Get analysisContext (js "analysis") in
  let* language := Get analysis (js "language") in
  let* s_language := ToString language in
  inr (js "You are a helpful assistant analyzing text. You have access to the following analysis context:" ++ nl ++
       js "          - Extracted Text: " ++ s_raw ++ nl ++
       js "          - Summary: " ++ s_summary ++ nl ++
       js "          - Sentiment: " ++ s_sentiment ++ nl ++
       js "          - Topics: " ++ s_topics ++ nl ++
       js "          - Language: " ++ s_language ++ nl ++
       js "          " ++ nl ++
       js "          Provide concise, specific answers based on this analysis.").

Definition chat_error_body (e : error) : value :=
  VObject [ prop "status" (str "error");
            prop "message" (str "Error processing chat request");
            prop "error" (VString (message e)) ].

Definition chat_try (body : value) : M unit :=
  (* const { question, analysisContext } = req.body *)
  question <- lift (Get body (js "question")) ;;
  analysisContext <- lift (Get body (js "analysisContext")) ;;
  if negb (ToBoolean question) || negb (ToBoolean analysisContext) then
    respond 400 missing_fields_body
  else
    system <- lift (chat_system_prompt analysisContext) ;;
    content <- create_completion (chat_request system question false) ;;
    respond 200
      (VObject [ prop "status" (str "success");
                 prop "response" content ]).

Definition chat_handler (body : value) : M unit :=
  try_catch (chat_try body) (fun e => respond 500 (chat_error_body e)).

(** *** POST /ask *)

Definition invalid_structure_body : value :=
  VObject [ prop "status" (str "error");
            prop "message" (str "Invalid analysis context structure") ].

(** [!analysisContext.textExtraction || !analysisContext.analysis] *)
Definition invalid_structure (analysisContext : value) : error + bool :=
  let* textExtraction := Get analysisContext (js "textExtraction") in
  if negb (ToBoolean textExtraction) then inr true
  else
    let* analysis := Get analysisContext (js "analysis") in
    inr (negb (ToBoolean analysis)).

(** [${e || 'Not available'}] *)
Definition or_not_available (v : value) : error + jsstring :=
  ToString (js_or v Not_available).

Definition ask_system_prompt (analysisContext : value) : error + jsstring :=
  let* textExtraction := Get analysisContext (js "textExtraction") in
  let* raw := Get textExtraction (js "raw") in
  let* s_raw := or_not_available raw in
  let* analysis := Get analysisContext (js "analysis") in
  let* summary := Get analysis (js "summary") in
  let* s_summary := or_not_available summary in
  let* analysis := Get analysisContext (js "analysis") in
  let* sentiment := Get analysis (js "sentiment") in
  let* s_sentiment := or_not_available sentiment in
  (* (topics && topics.join(', ')) || 'Not available' *)
  let* analysis := Get analysisContext (js "analysis") in
  let* topics := Get analysis (js "topics") in
  let* joined :=
    if ToBoolean topics then
      let* analysis := Get analysisContext (js "analysis") in
      let* topics := Get analysis (js "topics") in
      let* s := call_join topics (js ", ") in
      inr (VString s)
    else inr topics in
  let* s_topics := or_not_available joined in
  let* analysis := Get analysisContext (js "analysis") in
  let* language := Get analysis (js "language") in
  let* s_language := or_not_available language in
  let* textExtraction := Get analysisContext (js "textExtraction") in
  let* wordCount := Get textExtraction (js "wordCount") in
  let* s_wordCount := or_not_available wordCount in
  let* textExtraction := Get analysisContext (js "textExtraction") in
  let* characterCount := Get textExtraction (js "characterCount") in
  let* s_characterCount := or_not_available characterCount in
  inr (js "You are an expert text analyzer providing detailed insights. " ++ nl ++
       js "    Context of the analyzed text:" ++ nl ++
       js "    - Full Text: " ++ s_raw ++ nl ++
       js "    - Summary: " ++ s_summary ++ nl ++
       js "    - Sentiment: " ++ s_sentiment ++ nl ++
       js "    - Topics: " ++ s_topics ++ nl ++
       js "    - Language: " ++ s_language ++ nl ++
       js "    - Word Count: " ++ s_wordCount ++ nl ++
       js "    - Character Count: " ++ s_characterCount ++ nl ++
       nl ++
       js "    Provide a detailed response in JSON format with the following structure:" ++ nl ++
       js "    {" ++ nl ++
       js "      " ++ dq ++ js "answer" ++ dq ++ js ": " ++ dq ++ js "Your main answer to the question" ++ dq ++ js "," ++ nl ++
       js "      " ++ dq ++ js "evidence" ++ dq ++ js ": [" ++ dq ++ js "Relevant quotes or examples from the text" ++ dq ++ js "]," ++ nl ++
       js "      " ++ dq ++ js "confidence" ++ dq ++ js ": " ++ dq ++ js "High/Medium/Low based on available information" ++ dq ++ js "," ++ nl ++
       js "      " ++ dq ++ js "relatedTopics" ++ dq ++ js ": [" ++ dq ++ js "Related topics from the analysis" ++ dq ++ js "]," ++ nl ++
       js "      " ++ dq ++ js "suggestions" ++ dq ++ js ": [" ++ dq ++ js "Optional suggestions for follow-up questions" ++ dq ++ js "]" ++ nl ++
       js "    }" ++ nl ++
       nl ++
       js "    You must respond with valid JSON that matches this structure." ++ nl ++
       js "    Base your analysis on the provided context and be specific in your responses.").

Definition fallback_prefix : jsstring :=
  js "I couldn't format the answer properly, but here's the raw response: ".

Definition fallback_suggestion : value :=
  str "Try asking a more specific question".

(** [content.substring(0, 500)]: only strings have a callable
    [substring]; [undefined] and [null] have no properties. *)
Definition content_substring (content : value) : error + jsstring :=
  match content with
  | VString s => inr (substring0 500 s)
  | VUndefined | VNull =>
      inl (TypeError (CannotReadProperty content (js "substring")))
  | _ => inl (TypeError (NotAFunction (js "substring")))
  end.

Definition fallback_analysis (head : jsstring) : value :=
  VObject [ prop "answer" (VString (fallback_prefix ++ head ++ js "..."));
            prop "evidence" (VArray []);
            prop "confidence" (str "Low");
            prop "relatedTopics" (VArray []);
            prop "suggestions" (VArray [ fallback_suggestion ]) ].

Definition ask_success (question analysis : value) : value :=
  VObject [ prop "status" (str "success");
            prop "timestamp" timestamp;
            prop "question" question;
            prop "analysis" analysis ].

Definition ask_error_body (e : error) : value :=
  VObject [ prop "status" (str "error");
            prop "message" (str "Error processing question");
            prop "error"
              (VObject [ prop "type" (VString (name e));
                         prop "message" (VString (message e));
                         prop "timestamp" timestamp ]) ].

(** The inner [try]/[catch] around [JSON.parse]: it yields the parsed
    value, or, when the [catch] block has answered and returned from
    the handler, nothing. *)
Definition ask_parse (question : value) (content : value)
  : M (option value) :=
  try_catch
    (analysis <- lift (parse_content content) ;;
     ret (Some analysis))
    (fun parseError =>
       head <- lift (content_substring content) ;;
       respond 200 (ask_success question (fallback_analysis head)) ;;;
       ret None).

Definition ask_try (body : value) : M unit :=
  question <- lift (Get body (js "question")) ;;
  analysisContext <- lift (Get body (js "analysisContext")) ;;
  if negb (ToBoolean question) || negb (ToBoolean analysisContext) then
    respond 400 missing_fields_body
  else
    invalid <- lift (invalid_structure analysisContext) ;;
    if (invalid : bool) then
      respond 400 invalid_structure_body
    else
      systemPrompt <- lift (ask_system_prompt analysisContext) ;;
      content <- create_completion (chat_request systemPrompt question true) ;;
      parsed <- ask_parse question content ;;
      match parsed with
      | None => ret tt
      | Some analysis => respond 200 (ask_success question analysis)
      end.

Definition ask_handler (body : value) : M unit :=
  try_catch (ask_try body) (fun e => respond 500 (ask_error_body e)).

End Handlers.

(* ================================================================= *)
(** ** A runtime to run the handlers on examples

    One admissible engine: a JSON reader for the grammar of ECMA-404
    and plain renderings of numbers and faults.  The theorems are
    stated for every [Runtime]; this one serves to evaluate the
    handlers on concrete requests.  Numbers are read exactly (the
    rounding to binary64 is left out) and the messages are not those
    of any particular engine. *)

Module ExampleRuntime.

Import JsString.

Definition json_ws (c : code_unit) : bool :=
  ((c =? 32) || (c =? 9) || (c =? 10) || (c =? 13))%N.

Fixpoint skip_ws (s : jsstring) : jsstring :=
  match s with
  | [] => []
  | c :: r => if json_ws c then skip_ws r else s
  end.

Fixpoint strip_prefix (p s : jsstring) : option jsstring :=
  match p, s with
  | [], _ => Some s
  | x :: p', y :: s' => if (x =? y)%N then strip_prefix p' s' else None
  | _ :: _, [] => None
  end.

Definition is_digit (c : code_unit) : bool := ((48 <=? c) && (c <=? 57))%N.

Definition hex_digit (c : code_unit) : option N :=
  if is_digit c then Some (c - 48)%N
  else if ((97 <=? c) && (c <=? 102))%N then Some (c - 87)%N
  else if ((65 <=? c) && (c <=? 70))%N then Some (c - 55)%N
  else None.

Definition hex4 (a b c d : code_unit) : option code_unit :=
  match hex_digit a, hex_digit b, hex_digit c, hex_digit d with
  | Some x, Some y, Some z, Some u =>
      Some (((x * 16 + y) * 16 + z) * 16 + u)%N
  | _, _, _, _ => None
  end.

(** The characters of a string literal after its opening quote. *)
Fixpoint read_string (acc : jsstring) (s : jsstring)
  : option (jsstring * jsstring) :=
  match s with
  | [] => None
  | c :: r =>
      if (c =? 34)%N then Some (rev acc, r)
      else if (c =? 92)%N then
        match r with
        | [] => None
        | e :: r' =>
            if (e =? 34)%N then read_string (34%N :: acc) r'
            else if (e =? 92)%N then read_string (92%N :: acc) r'
            else if (e =? 47)%N then read_string (47%N :: acc) r'
            else if (e =? 98)%N then read_string (8%N :: acc) r'
            else if (e =? 102)%N then read_string (12%N :: acc) r'
            else if (e =? 110)%N then read_string (10%N :: acc) r'
            else if (e =? 114)%N then read_string (13%N :: acc) r'
            else if (e =? 116)%N then read_string (9%N :: acc) r'
            else if (e =? 117)%N then
              match r' with
              | h1 :: h2 :: h3 :: h4 :: r'' =>
                  match hex4 h1 h2 h3 h4 with
                  | Some u => read_string (u :: acc) r''
                  | None => None
                  end
              | _ => None
              end
            else None
        end
      else if (c <? 32)%N then None
      else read_string (c :: acc) r
  end.

(** A run of digits: its value, its length, the rest. *)
Fixpoint read_digits (acc : N) (len : nat) (s : jsstring)
  : N * nat * jsstring :=
  match s with
  | c :: r =>
      if is_digit c then read_digits (acc * 10 + (c - 48))%N (S len) r
      else (acc, len, s)
  | [] => (acc, len, s)
  end.

Definition scale (mantissa : Z) (exponent : Z) : Q :=
  if (0 <=? exponent)%Z
  then inject_Z (mantissa * 10 ^ exponent)%Z
  else Qmake mantissa (Z.to_pos (10 ^ (- exponent))%Z).

(** [-? int frac? exp?] *)
Definition read_number (s : jsstring) : option (value * jsstring) :=
  let (negative, s1) :=
    match s with
    | c :: r => if (c =? 45)%N then (true, r) else (false, s)
    | [] => (false, s)
    end in
  match s1 with
  | [] => None
  | d :: _ =>
      if negb (is_digit d) then None
      else
        let '(int, int_len, s2) := read_digits 0 0 s1 in
        if (d =? 48)%N && negb (int_len =? 1)%nat then None
        else
          let frac :=
            match s2 with
            | c :: r =>
                if (c =? 46)%N then
                  let '(f, f_len, s3) := read_digits int 0 r in
                  if (f_len =? 0)%nat then None else Some (f, f_len, s3)
                else Some (int, 0, s2)
            | [] => Some (int, 0, s2)
            end in
          match frac with
          | None => None
          | Some (mant, f_len, s3) =>
              let expo :=
                match s3 with
                | c :: r =>
                    if ((c =? 101) || (c =? 69))%N then
                      let (eneg, r1) :=
                        match r with
                        | g :: r' =>
                            if (g =? 45)%N then (true, r')
                            else if (g =? 43)%N then (false, r')
                            else (false, r)
                        | [] => (false, r)
                        end in
                      let '(e, e_len, s4) := read_digits 0 0 r1 in
                      if (e_len =? 0)%nat then None
                      else Some (if eneg then (- Z.of_N e)%Z else Z.of_N e, s4)
                    else Some (0%Z, s3)
                | [] => Some (0%Z, s3)
                end in
              match expo with
              | None => None
              | Some (e, s4) =>
                  let m := if negative then (- Z.of_N mant)%Z else Z.of_N mant in
                  Some (VNumber (Num (scale m (e - Z.of_nat f_len))), s4)
              end
          end
  end.

(** A value, then the members of an array and of an object after
    their opening bracket.  [fuel] bounds the number of nested and
    successive calls. *)
Fixpoint read_value (fuel : nat) (s : jsstring) : option (value * jsstring) :=
  match fuel with
  | O => None
  | S n =>
      let fix read_elements (k : nat) (acc : list value) (s : jsstring)
        : option (value * jsstring) :=
        match k with
        | O => None
        | S k' =>
            match read_value n s with
            | None => None
            | Some (v, r) =>
                match skip_ws r with
                | c :: r' =>
                    if (c =? 44)%N then read_elements k' (v :: acc) r'
                    else if (c =? 93)%N then Some (VArray (rev (v :: acc)), r')
                    else None
                | [] => None
                end
            end
        end in
      let fix read_members (k : nat) (acc : list (jsstring * value))
        (s : jsstring) : option (value * jsstring) :=
        match k with
        | O => None
        | S k' =>
            match skip_ws s with
            | q :: r0 =>
                if negb (q =? 34)%N then None
                else
                  match read_string [] r0 with
                  | None => None
                  | Some (key, r1) =>
                      match skip_ws r1 with
                      | colon :: r2 =>
                          if negb (colon =? 58)%N then None
                          else
                            match read_value n r2 with
                            | None => None
                            | Some (v, r3) =>
                                let acc' := set_property acc key v in
                                match skip_ws r3 with
                                | c :: r4 =>
                                    if (c =? 44)%N then read_members k' acc' r4
                                    else if (c =? 125)%N
                                         then Some (VObject acc', r4)
                                         else None
                                | [] => None
                                end
                            end
                      | [] => None
                      end
                  end
            | [] => None
            end
        end in
      match skip_ws s with
      | [] => None
      | c :: r =>
          if (c =? 123)%N then
            match skip_ws r with
            | c' :: r' =>
                if (c' =? 125)%N then Some (VObject [], r')
                else read_members (List.length r) [] r
            | [] => None
            end
          else if (c =? 91)%N then
            match skip_ws r with
            | c' :: r' =>
                if (c' =? 93)%N then Some (VArray [], r')
                else read_elements (List.length r) [] r
            | [] => None
            end
          else if (c =? 34)%N then
            match read_string [] r with
            | Some (str, r') => Some (VString str, r')
            | None => None
            end
          else if (c =? 116)%N then
            option_map (fun r' => (VBool true, r')) (strip_prefix (js "true") (c :: r))
          else if (c =? 102)%N then
            option_map (fun r' => (VBool false, r')) (strip_prefix (js "false") (c :: r))
          else if (c =? 110)%N then
            option_map (fun r' => (VNull, r')) (strip_prefix (js "null") (c :: r))
          else read_number (c :: r)
      end
  end.

Definition syntax_error : error :=
  Error (js "SyntaxError") (js "Unexpected token in JSON").

Definition parse (s : jsstring) : error + value :=
  match read_value (S (List.length s)) s with
  | Some (v, rest) =>
      match skip_ws rest with
      | [] => inr v
      | _ :: _ => inl syntax_error
      end
  | None => inl syntax_error
  end.

(** Integers in decimal; the other finite numbers as a fraction. *)
Definition show_number (n : number) : jsstring :=
  match n with
  | NaN => js "NaN"
  | Infinity false => js "Infinity"
  | Infinity true => js "-Infinity"
  | Num q =>
      let show_Z (z : Z) : jsstring :=
        (if (z <? 0)%Z then js "-" else [])
        ++ js (NilZero.string_of_uint (N.to_uint (Z.abs_N z))) in
      if (Qnum q mod Zpos (Qden q) =? 0)%Z
      then show_Z (Qnum q / Zpos (Qden q))%Z
      else show_Z (Qnum q) ++ js "/" ++ show_Z (Zpos (Qden q))
  end.

Definition show_fault (f : fault) : jsstring :=
  match f with
  | CannotReadProperty VNull key =>
      js "Cannot read properties of null (reading '" ++ key ++ js "')"
  | CannotReadProperty _ key =>
      js "Cannot read properties of undefined (reading '" ++ key ++ js "')"
  | NotAFunction key => key ++ js " is not a function"
  | CannotConvertToPrimitive => js "Cannot convert object to primitive value"
  end.

#[export] Instance runtime : Runtime := {
  JSON_parse := parse;
  Number_toString := show_number;
  fault_message := show_fault
}.

End ExampleRuntime.

(* ================================================================= *)
(** ** Vocabulary of the specification *)

Section Claimed.
Context {RT : Runtime}.

(** The degraded answer as the specification words it: the explanatory
    prefix followed by the first 500 characters of the raw reply. *)
Definition claimed_fallback_analysis (content : jsstring) : value :=
  VObject [ prop "answer"
              (VString (fallback_prefix ++ JsString.substring0 500 content));
            prop "evidence" (VArray []);
            prop "confidence" (str "Low");
            prop "relatedTopics" (VArray []);
            prop "suggestions" (VArray [ fallback_suggestion ]) ].

(** A context lacks a member when reading it gives a value that counts
    as false ([undefined] when the member is absent). *)
Definition lacks (analysisContext : value) (member : string) : bool :=
  match Get analysisContext (js member) with
  | inr v => negb (ToBoolean v)
  | inl _ => true
  end.

(** A member is missing when it is absent or [null]. *)
Definition nullish (v : value) : bool :=
  match v with
  | VUndefined | VNull => true
  | _ => false
  end.

End Claimed.

(* ================================================================= *)
(** ** Example requests and worlds *)

Module Examples.

Import JsString.

Definition image : File :=
  {| originalname := js "note.png";
     path := js "uploads/1700000000000-note.png";
     size := 2048 |}.

Definition instant : jsstring := js "2024-01-01T00:00:00.000Z".

(** A world in which every collaborator succeeds: the OCR engine reads
    [text] and the chat-completion API replies [reply]. *)
Definition world (text : jsstring) (reply : value) : World :=
  {| now := instant;
     fs_access := fun _ => None;
     createWorker := fun _ => None;
     recognize := fun _ => inr text;
     chat_completion := fun _ => inr reply |}.

(** Space, line feed, tab, no-break space. *)
Definition blank_text : jsstring := [32; 10; 9; 160]%N.

(** [" Caf<e-acute>  <U+1F600>"] followed by a line feed: two tokens,
    the second a surrogate pair. *)
Definition unicode_text : jsstring :=
  [32; 67; 97; 102; 233; 32; 32; 55357; 56832; 10]%N.

Definition prose_reply : jsstring := js "Sorry, I can only answer in prose.".

(** [{"summary": "a greeting", "topics": ["coffee"]}] *)
Definition json_reply : jsstring :=
  js "{" ++ quoted "summary" ++ js ": " ++ quoted "a greeting" ++ js ", "
  ++ quoted "topics" ++ js ": [" ++ quoted "coffee" ++ js "]}".

Definition good_context : value :=
  VObject [ prop "textExtraction"
              (VObject [ prop "raw" (str "Hello world");
                         prop "wordCount" (VNumber (number_of_nat 2));
                         prop "characterCount" (VNumber (number_of_nat 11)) ]);
            prop "analysis"
              (VObject [ prop "summary" (str "a greeting");
                         prop "sentiment" (str "positive");
                         prop "topics" (VArray [ str "greetings" ]);
                         prop "language" (str "English") ]) ].

(** A context with its text extraction but without an analysis. *)
Definition context_without_analysis : value :=
  VObject [ prop "textExtraction" (VObject [ prop "raw" (str "Hello world") ]) ].

Definition a_question : value := str "What is the text about?".

(** What [json_reply] denotes. *)
Definition parsed_json_reply : value :=
  VObject [ prop "summary" (str "a greeting");
            prop "topics" (VArray [ str "coffee" ]) ].

(** An image without text; a readable image whose analysis comes back
    as prose; the same with a JSON analysis. *)
Definition blank_world : World := world blank_text VNull.
Definition prose_world : World := world unicode_text (VString prose_reply).
Definition json_world : World := world unicode_text (VString json_reply).

Definition request (question analysisContext : value) : value :=
  VObject [ prop "question" question; prop "analysisContext" analysisContext ].

(** A body that carries an (empty) context and no question. *)
Definition request_without_question : value :=
  VObject [ prop "analysisContext" (VObject []) ].

End Examples.

(* ================================================================= *)
(** ** The rest of the service: the configuration of multer, the error
       middleware, start-up, the language-data script *)

(** [s.startsWith(prefix)] *)
Fixpoint startsWith (prefix s : jsstring) : bool :=
  match prefix, s with
  | [], _ => true
  | x :: p, y :: r => (x =? y)%N && startsWith p r
  | _ :: _, [] => false
  end.

(** The decimal numeral of a non-negative integer: what [+] makes of
    such a number when its other operand is a string. *)
Definition decimal (n : N) : jsstring :=
  js (NilEmpty.string_of_uint (N.to_uint n)).

(** Whether a value is an array, and whether it is a primitive value
    (neither an array nor an object). *)
Definition is_array (v : value) : bool :=
  match v with
  | VArray _ => true
  | _ => false
  end.

Definition primitive (v : value) : bool :=
  match v with
  | VArray _ | VObject _ => false
  | _ => true
  end.

Module Multer.

(** [fileFilter]: the callback receives an error (and [false]) for a
    file that is not an image, no error (and [true]) otherwise. *)
Definition fileFilter (mimetype : jsstring) : error + bool :=
  if negb (startsWith (js "image/") mimetype)
  then inl (Error (js "Error") (js "Only image files are allowed!"))
  else inr true.

(** [filename]: [Date.now() + '-' + file.originalname], with the clock
    in milliseconds. *)
Definition filename (now_ms : N) (originalname : jsstring) : jsstring :=
  decimal now_ms ++ js "-" ++ originalname.

(** [fs.existsSync(p)], the file system being the paths that exist. *)
Definition existsSync (paths : list jsstring) (p : jsstring) : bool :=
  existsb (JsString.eqb p) paths.

(** [destination]: creates [uploads] if it is not there and answers
    ['uploads/'].  [mkdir] is what [fs.mkdirSync] throws, if it
    throws.  The result is the file system left and the directory
    given to the callback. *)
Definition destination (paths : list jsstring) (mkdir : option error)
  : error + (list jsstring * jsstring) :=
  if negb (existsSync paths (js "uploads")) then
    match mkdir with
    | Some e => inl e
    | None => inr (paths ++ [js "uploads"], js "uploads/")
    end
  else inr (paths, js "uploads/").

End Multer.

Section Service.
Context {RT : Runtime}.
Variable w : World.

(** The error-handling middleware, [(err, req, res, next) => ...]. *)
Definition error_middleware (err : error) : M unit :=
  respond 500
    (VObject [ prop "status" (str "error");
               prop "message"
                 (js_or (VString (message err)) (str "Internal server error"));
               prop "error"
                 (error_details w (VString (name err)) (VString (message err))) ]).

(** [GET /] *)
Definition root_handler : M unit :=
  respond 200 (VObject [ prop "message" (str "Server is running") ]).

(** The script that fetches the language data of the OCR engine: it
    creates a worker and terminates it; on any exception it exits with
    code 1.  The result is the code given to [process.exit], if it is
    called. *)
Definition download_language_data : M (option nat) :=
  try_catch
    (match createWorker w (js "eng") with
     | Some e => emit (CreateWorker (js "eng") false) ;;; throw e
     | None => emit (CreateWorker (js "eng") true)
     end ;;;
     worker_terminate ;;;
     ret None)
    (fun error => ret (Some 1)).

End Service.

Module Startup.

(** What the module does when it is loaded, up to [app.listen]. *)
Inductive event : Type :=
| NewOpenAI (apiKey : value)        (* [new OpenAI({ apiKey })] *)
| Exit (code : nat)                 (* [process.exit(code)] *)
| Mkdir (path : jsstring)           (* [fs.mkdirSync(path, { recursive: true })] *)
| Listen (port : nat).              (* [app.listen(port)] *)

(** The environment of the process. *)
Record Boot : Type := {
  (** [process.env.OPENAI_API_KEY], once dotenv has run *)
  OPENAI_API_KEY : option jsstring;
  (** what the constructor of the client throws, if it throws *)
  new_OpenAI : value -> option error;
  (** [path.join(__dirname, 'uploads')] *)
  uploadsDir : jsstring;
  (** the paths that exist *)
  paths : list jsstring;
  (** what [fs.mkdirSync] throws, if it throws *)
  mkdirSync : jsstring -> option error
}.

Inductive outcome : Type :=
| Crashed (e : error)     (* an exception at top level *)
| Exited (code : nat)
| Serving.

Definition env_value (x : option jsstring) : value :=
  match x with
  | Some s => VString s
  | None => VUndefined
  end.

Definition startup (b : Boot) : list event * outcome :=
  let apiKey := env_value (OPENAI_API_KEY b) in
  match new_OpenAI b apiKey with
  | Some e => ([ NewOpenAI apiKey ], Crashed e)
  | None =>
      if negb (ToBoolean apiKey) then
        ([ NewOpenAI apiKey; Exit 1 ], Exited 1)
      else if negb (Multer.existsSync (paths b) (uploadsDir b)) then
        match mkdirSync b (uploadsDir b) with
        | Some e => ([ NewOpenAI apiKey; Mkdir (uploadsDir b) ], Crashed e)
        | None =>
            ([ NewOpenAI apiKey; Mkdir (uploadsDir b); Listen 3000 ], Serving)
        end
      else ([ NewOpenAI apiKey; Listen 3000 ], Serving)
  end.

End Startup.

Module MoreExamples.

Import JsString.

(** An analysis as a model may return it: no [topics]. *)
Definition context_without_topics : value :=
  VObject [ prop "textExtraction" (VObject [ prop "raw" (str "Hello world") ]);
            prop "analysis" (VObject [ prop "summary" (str "a greeting") ]) ].

(** A context whose two sub-objects are empty. *)
Definition hollow_context : value :=
  VObject [ prop "textExtraction" (VObject []);
            prop "analysis" (VObject []) ].

(** [{"summary": "a greeting", "timestamp": "yesterday"}] *)
Definition stamped_reply : jsstring :=
  js "{" ++ quoted "summary" ++ js ": " ++ quoted "a greeting" ++ js ", "
  ++ quoted "timestamp" ++ js ": " ++ quoted "yesterday" ++ js "}".

Definition stamped_world : World :=
  Examples.world Examples.unicode_text (VString stamped_reply).

(** A world whose chat-completion API rejects every call. *)
Definition api_error : error := Error (js "APIError") (js "429 Too Many Requests").

Definition failing_world : World :=
  {| now := Examples.instant;
     fs_access := fun _ => None;
     createWorker := fun _ => None;
     recognize := fun _ => inr Examples.unicode_text;
     chat_completion := fun _ => inl api_error |}.

(** A world whose OCR engine cannot start. *)
Definition engine_error : error := Error (js "Error") (js "Network error").

Definition engineless_world : World :=
  {| now := Examples.instant;
     fs_access := fun _ => None;
     createWorker := fun _ => Some engine_error;
     recognize := fun _ => inr Examples.unicode_text;
     chat_completion := fun _ => inr VNull |}.

(** A world whose completions have no content. *)
Definition silent_world : World :=
  Examples.world Examples.unicode_text VUndefined.

(** What [stamped_reply] denotes. *)
Definition parsed_stamped_reply : value :=
  VObject [ prop "summary" (str "a greeting");
            prop "timestamp" (str "yesterday") ].

(** A process without credential, and one with it and no uploads
    directory yet. *)
Definition bare_boot : Startup.Boot :=
  {| Startup.OPENAI_API_KEY := None;
     Startup.new_OpenAI := fun _ => None;
     Startup.uploadsDir := js "/srv/app/uploads";
     Startup.paths := [];
     Startup.mkdirSync := fun _ => None |}.

Definition fresh_boot : Startup.Boot :=
  {| Startup.OPENAI_API_KEY := Some (js "sk-test");
     Startup.new_OpenAI := fun _ => None;
     Startup.uploadsDir := js "/srv/app/uploads";
     Startup.paths := [];
     Startup.mkdirSync := fun _ => None |}.

End MoreExamples.

(* ================================================================= *)
(** ** Proof support *)

Arguments JsString.js : simpl never.
Arguments upload_system_prompt : simpl never.
Arguments chat_request : simpl never.
Arguments str : simpl never.
Arguments prop : simpl never.

(** Unfolds a handler down to the world's answers. *)
Ltac run_handler :=
  unfold run, upload_handler, upload_try, upload_catch, upload_finally,
    chat_handler, chat_try, ask_handler, ask_try, ask_parse,
    access, create_worker, worker_recognize, worker_terminate,
    create_completion, respond,
    try_finally, try_catch, bind, ret, throw, lift, emit, set_worker,
    get_worker, initial;
  simpl.

(** Decides a membership in a short list of responses. *)
Ltac no_such_response :=
  repeat match goal with
    | H : _ \/ _ |- _ => destruct H
    | H : False |- _ => destruct H
    | H : (_, _) = (_, _) |- _ => inversion H; clear H; subst; try discriminate
    end.

(* ================================================================= *)
(** ** Facts about strings *)

Unset Implicit Arguments.

Module JsStringFacts.

Import JsString.

Lemma eqb_eq (a b : t) : eqb a b = true <-> a = b.
Proof.
  revert b; induction a as [|x a IH]; intros [|y b]; simpl;
    try (split; [discriminate | congruence]); try tauto.
  rewrite andb_true_iff, N.eqb_eq, IH.
  split; [intros [-> ->]; reflexivity | intros [= -> ->]; auto].
Qed.

Lemma trimStart_head (s : t) c r : trimStart s = c :: r -> is_ws c = false.
Proof.
  induction s as [|x s IH]; simpl; [discriminate|].
  destruct (is_ws x) eqn:Hx; [exact IH|].
  intros [= <- _]; exact Hx.
Qed.

Lemma trimStart_app_text (a : t) d :
  is_ws d = false -> trimStart (a ++ [d]) = trimStart a ++ [d].
Proof.
  intros Hd; induction a as [|x a IH]; simpl.
  - now rewrite Hd.
  - destruct (is_ws x); [exact IH | reflexivity].
Qed.

Lemma trimStart_split (s : t) :
  exists p, s = p ++ trimStart s /\ forallb is_ws p = true.
Proof.
  induction s as [|x s (p & Hp & Hws)]; simpl.
  - exists []; auto.
  - destruct (is_ws x) eqn:Hx.
    + exists (x :: p); simpl; rewrite Hx, Hws; split; [congruence | reflexivity].
    + exists []; auto.
Qed.

Lemma trimEnd_split (s : t) :
  exists p, s = trimEnd s ++ p /\ forallb is_ws p = true.
Proof.
  destruct (trimStart_split (rev s)) as (p & Hp & Hws).
  exists (rev p); split.
  - unfold trimEnd. rewrite <- rev_app_distr, <- Hp, rev_involutive; reflexivity.
  - rewrite forallb_forall in *. intros x Hx. apply Hws, in_rev, Hx.
Qed.

Lemma ends_in_text_last b (s : t) c :
  ends_in_text b (s ++ [c]) = negb (is_ws c).
Proof.
  revert b; induction s as [|x s IH]; intros b; simpl; auto.
Qed.

Lemma trimEnd_ends b (s : t) :
  trimEnd s <> [] -> ends_in_text b (trimEnd s) = true.
Proof.
  unfold trimEnd. destruct (trimStart (rev s)) as [|d y] eqn:E.
  - intros H; now elim H.
  - intros _. simpl. rewrite ends_in_text_last.
    now rewrite (trimStart_head _ _ _ E).
Qed.

Lemma trimEnd_head d (y : t) :
  is_ws d = false -> exists z, trimEnd (d :: y) = d :: z.
Proof.
  intros Hd. unfold trimEnd. simpl rev.
  rewrite (trimStart_app_text _ _ Hd), rev_app_distr. simpl. eauto.
Qed.

(** A trimmed string, when not empty, begins and ends with a code
    unit that is not white space. *)
Lemma trim_shape (s : t) :
  trim s <> [] ->
  exists c r, trim s = c :: r /\ is_ws c = false /\ ends_in_text true r = true.
Proof.
  intros Hne. unfold trim in *.
  destruct (trimStart s) as [|d y] eqn:E; [now elim Hne|].
  pose proof (trimStart_head _ _ _ E) as Hd.
  destruct (trimEnd_head d y Hd) as (z & Hz).
  exists d, z. repeat split; auto.
  pose proof (trimEnd_ends true _ Hne) as H.
  rewrite Hz in H. simpl in H. now rewrite Hd in H.
Qed.

Lemma trim_nonempty (s : t) : trim s <> [] -> s <> [].
Proof. intros H ->; apply H; reflexivity. Qed.

(** Where the splitter is not about to emit an empty piece, its
    pieces are the tokens. *)
Lemma split_ws_aux_tokens (s : t) :
  forall in_sep cur,
    ends_in_text (negb in_sep) s = true ->
    (if in_sep then cur = [] else cur <> []) ->
    split_ws_aux in_sep cur s = tokens_aux cur s.
Proof.
  induction s as [|c r IH]; intros in_sep cur Hend Hcur; simpl in *.
  - destruct in_sep; [discriminate|].
    destruct cur; [now elim Hcur | reflexivity].
  - destruct (is_ws c) eqn:Hc; simpl in Hend.
    + destruct in_sep.
      * subst cur. apply IH; auto.
      * destruct cur as [|x cur]; [now elim Hcur|].
        f_equal. apply IH; auto.
    + apply IH; [exact Hend | discriminate].
Qed.

Lemma tokens_aux_ws (p : t) :
  forallb is_ws p = true -> forall cur, tokens_aux cur p = tokens_aux cur [].
Proof.
  induction p as [|x p IH]; simpl; auto.
  rewrite andb_true_iff. intros [Hx Hp] cur. rewrite Hx.
  destruct cur; rewrite (IH Hp); reflexivity.
Qed.

Lemma tokens_aux_ws_suffix (x p : t) :
  forallb is_ws p = true ->
  forall cur, tokens_aux cur (x ++ p) = tokens_aux cur x.
Proof.
  intros Hp. induction x as [|c x IH]; intros cur.
  - apply tokens_aux_ws, Hp.
  - simpl. destruct (is_ws c); [destruct cur|]; now rewrite IH.
Qed.

Lemma tokens_trimStart (s : t) : tokens (trimStart s) = tokens s.
Proof.
  unfold tokens. induction s as [|c s IH]; simpl; auto.
  destruct (is_ws c) eqn:Hc; [exact IH|].
  simpl. now rewrite Hc.
Qed.

Lemma tokens_trimEnd (s : t) : tokens (trimEnd s) = tokens s.
Proof.
  destruct (trimEnd_split s) as (p & Hs & Hp).
  unfold tokens. rewrite Hs at 2. now rewrite tokens_aux_ws_suffix.
Qed.

Lemma tokens_trim (s : t) : tokens (trim s) = tokens s.
Proof. unfold trim. now rewrite tokens_trimEnd, tokens_trimStart. Qed.

(** [raw.trim().split(/\s+/)] lists the tokens of [raw] whenever the
    trimmed string is not empty. *)
Lemma split_trim_tokens (raw : t) :
  trim raw <> [] -> split_ws (trim raw) = tokens raw.
Proof.
  intros Hne. rewrite <- tokens_trim.
  destruct (trim_shape _ Hne) as (c & r & -> & Hc & Hend).
  unfold split_ws, tokens. simpl. rewrite Hc.
  apply split_ws_aux_tokens; [exact Hend | discriminate].
Qed.

(** The splitter always returns at least one piece. *)
Lemma split_ws_aux_length (s : t) :
  forall in_sep cur, 1 <= List.length (split_ws_aux in_sep cur s).
Proof.
  induction s as [|c r IH]; intros in_sep cur; simpl; [lia|].
  destruct (is_ws c); [destruct in_sep|]; simpl; auto; lia.
Qed.

End JsStringFacts.


(* ================================================================= *)
(** ** The paths of the handlers *)

Section UploadFacts.
Context {RT : Runtime}.
Variable w : World.

(** The path on which the image holds no text. *)
Lemma upload_run_no_text (f : File) (text : jsstring) :
  fs_access w (path f) = None ->
  createWorker w (js "eng") = None ->
  recognize w (path f) = inr text ->
  JsString.trim text = [] ->
  run (upload_handler w None (Some f)) =
    State (upload_events_before_text f
           ++ [ Terminate; Respond 400 no_text_body; Terminate ]) true.
Proof.
  intros Ha Hc Hr Ht. run_handler.
  rewrite Ha; simpl. rewrite Hc; simpl. rewrite Hr; simpl. rewrite Ht; simpl.
  reflexivity.
Qed.

(** The path on which the reply of the model does not parse. *)
Lemma upload_run_parse_failure (f : File) (text : jsstring)
  (content : value) (e : error) :
  fs_access w (path f) = None ->
  createWorker w (js "eng") = None ->
  recognize w (path f) = inr text ->
  JsString.trim text <> [] ->
  chat_completion w (chat_request upload_system_prompt (VString text) true)
    = inr content ->
  parse_content content = inl e ->
  run (upload_handler w None (Some f)) =
    State (upload_events_before_text f
           ++ [ ChatCompletion
                  (chat_request upload_system_prompt (VString text) true);
                Respond 500 (processing_error_body w e);
                Terminate ]) true.
Proof.
  intros Ha Hc Hr Ht Hl Hp. run_handler.
  rewrite Ha; simpl. rewrite Hc; simpl. rewrite Hr; simpl.
  destruct (JsString.trim text); [now elim Ht|]; simpl.
  rewrite Hl; simpl. rewrite Hp; simpl. reflexivity.
Qed.

(** The successful path. *)
Lemma upload_run_success (f : File) (text : jsstring)
  (content : value) (analysis : value) :
  fs_access w (path f) = None ->
  createWorker w (js "eng") = None ->
  recognize w (path f) = inr text ->
  JsString.trim text <> [] ->
  chat_completion w (chat_request upload_system_prompt (VString text) true)
    = inr content ->
  parse_content content = inr analysis ->
  run (upload_handler w None (Some f)) =
    State (upload_events_before_text f
           ++ [ ChatCompletion
                  (chat_request upload_system_prompt (VString text) true);
                Respond 200 (upload_success w f text analysis);
                Terminate ]) true.
Proof.
  intros Ha Hc Hr Ht Hl Hp. run_handler.
  rewrite Ha; simpl. rewrite Hc; simpl. rewrite Hr; simpl.
  destruct (JsString.trim text); [now elim Ht|]; simpl.
  rewrite Hl; simpl. rewrite Hp; simpl. reflexivity.
Qed.

(** The paths on which the OCR engine or the API throws after the
    worker was created: one response, one termination. *)
Lemma upload_run_recognize_throws (f : File) (e : error) :
  fs_access w (path f) = None ->
  createWorker w (js "eng") = None ->
  recognize w (path f) = inl e ->
  run (upload_handler w None (Some f)) =
    State (upload_events_before_text f
           ++ [ Respond 500 (processing_error_body w e); Terminate ]) true.
Proof.
  intros Ha Hc Hr. run_handler.
  rewrite Ha; simpl. rewrite Hc; simpl. rewrite Hr; simpl. reflexivity.
Qed.

Lemma upload_run_completion_throws (f : File) (text : jsstring) (e : error) :
  fs_access w (path f) = None ->
  createWorker w (js "eng") = None ->
  recognize w (path f) = inr text ->
  JsString.trim text <> [] ->
  chat_completion w (chat_request upload_system_prompt (VString text) true)
    = inl e ->
  run (upload_handler w None (Some f)) =
    State (upload_events_before_text f
           ++ [ ChatCompletion
                  (chat_request upload_system_prompt (VString text) true);
                Respond 500 (processing_error_body w e);
                Terminate ]) true.
Proof.
  intros Ha Hc Hr Ht Hl. run_handler.
  rewrite Ha; simpl. rewrite Hc; simpl. rewrite Hr; simpl.
  destruct (JsString.trim text); [now elim Ht|]; simpl.
  rewrite Hl; simpl. reflexivity.
Qed.

(** X4.  Unless the image holds no text, the handler terminates as many
    workers as it created: one, or none when it ended before
    [createWorker] resolved. *)
Lemma upload_release_elsewhere (err : option upload_error)
  (file : option File) :
  (forall f text,
      file = Some f -> recognize w (path f) = inr text ->
      JsString.trim text <> []) ->
  terminations (run (upload_handler w err file))
    = workers_created (run (upload_handler w err file))
  /\ workers_created (run (upload_handler w err file)) <= 1.
Proof.
  intros Htext.
  destruct err as [[e|e]|]; [split; auto .. |].
  destruct file as [f|]; [|split; auto].
  specialize (Htext f). run_handler.
  destruct (fs_access w (path f)); simpl; [split; auto|].
  destruct (createWorker w (js "eng")); simpl; [split; auto|].
  destruct (recognize w (path f)) as [e0|text]; simpl; [split; auto|].
  specialize (Htext text eq_refl eq_refl).
  destruct (JsString.trim text); [now elim Htext|]; simpl.
  destruct (chat_completion w _); simpl; [split; auto|].
  destruct (parse_content _); simpl; split; auto.
Qed.

(** Whatever the collaborators answer, the callback sends exactly one
    response and ends normally: no exception escapes it. *)
Lemma upload_responds_once (err : option upload_error) (file : option File) :
  List.length (responses (run (upload_handler w err file))) = 1
  /\ snd (upload_handler w err file initial) = inr tt.
Proof.
  destruct err as [[e|e]|]; [split; reflexivity .. |].
  destruct file as [f|]; [|split; reflexivity].
  run_handler.
  destruct (fs_access w (path f)); simpl; [split; reflexivity|].
  destruct (createWorker w (js "eng")); simpl; [split; reflexivity|].
  destruct (recognize w (path f)) as [e|text]; simpl; [split; reflexivity|].
  destruct (JsString.trim text); simpl; [split; reflexivity|].
  destruct (chat_completion w _); simpl; [split; reflexivity|].
  destruct (parse_content _); simpl; split; reflexivity.
Qed.

(** Every success payload comes from the successful path. *)
Lemma upload_success_inv (err : option upload_error) (file : option File)
  (payload : value) :
  In (200, payload) (responses (run (upload_handler w err file))) ->
  exists f text content analysis,
    err = None /\ file = Some f /\
    fs_access w (path f) = None /\
    createWorker w (js "eng") = None /\
    recognize w (path f) = inr text /\
    JsString.trim text <> [] /\
    chat_completion w (chat_request upload_system_prompt (VString text) true)
      = inr content /\
    parse_content content = inr analysis /\
    payload = upload_success w f text analysis.
Proof.
  destruct err as [[e|e]|]; [simpl; intros; no_such_response .. |].
  destruct file as [f|]; [|simpl; intros; no_such_response].
  run_handler.
  destruct (fs_access w (path f)) eqn:Ha; simpl;
    [intros; no_such_response|].
  destruct (createWorker w (js "eng")) eqn:Hc; simpl;
    [intros; no_such_response|].
  destruct (recognize w (path f)) as [e|text] eqn:Hr; simpl;
    [intros; no_such_response|].
  destruct (JsString.trim text) eqn:Ht; simpl;
    [intros; no_such_response|].
  destruct (chat_completion w _) as [e|content] eqn:Hl; simpl;
    [intros; no_such_response|].
  destruct (parse_content content) as [e|analysis] eqn:Hp; simpl;
    [intros; no_such_response|].
  intros [H|[]]. inversion H; subst.
  exists f, text, content, analysis.
  repeat split; auto. rewrite Ht; discriminate.
Qed.

End UploadFacts.

Section QuestionFacts.
Context {RT : Runtime}.
Variable w : World.

(** A property read throws on [undefined] and [null] only. *)
Lemma Get_nullish (v : value) (key : jsstring) :
  nullish v = true -> Get v key = inl (TypeError (CannotReadProperty v key)).
Proof. destruct v; simpl; congruence. Qed.

Lemma Get_not_nullish (v : value) (key : jsstring) :
  nullish v = false -> exists x, Get v key = inr x.
Proof. destruct v; simpl; try discriminate; eauto. Qed.

Lemma truthy_not_nullish (v : value) : ToBoolean v = true -> nullish v = false.
Proof. destruct v; simpl; congruence. Qed.

(** The structural check of [/ask], on the members it reads. *)
Lemma invalid_structure_members (analysisContext textExtraction analysis : value) :
  Get analysisContext (js "textExtraction") = inr textExtraction ->
  Get analysisContext (js "analysis") = inr analysis ->
  invalid_structure analysisContext
    = inr (negb (ToBoolean textExtraction) || negb (ToBoolean analysis)).
Proof.
  intros Ht Ha. unfold invalid_structure. rewrite Ht. simpl.
  destruct (ToBoolean textExtraction); simpl; [|reflexivity].
  rewrite Ha. reflexivity.
Qed.

(** The interpolation of the [/chat] prompt throws when a sub-object is
    missing. *)
Lemma chat_system_prompt_throws (analysisContext textExtraction analysis : value) :
  Get analysisContext (js "textExtraction") = inr textExtraction ->
  Get analysisContext (js "analysis") = inr analysis ->
  nullish textExtraction = true \/ nullish analysis = true ->
  exists e, chat_system_prompt analysisContext = inl e.
Proof.
  intros Ht Ha Hmiss. unfold chat_system_prompt. rewrite Ht. simpl.
  destruct (nullish textExtraction) eqn:Hn.
  - rewrite (Get_nullish _ _ Hn). simpl. eauto.
  - destruct Hmiss as [Hm|Hm]; [discriminate|].
    destruct (Get_not_nullish _ (js "raw") Hn) as (raw & ->). simpl.
    destruct (ToString raw); simpl; [eauto|].
    rewrite Ha. simpl. rewrite (Get_nullish _ _ Hm). simpl. eauto.
Qed.

(** [/chat] and [/ask] when a field counts as false. *)
Lemma chat_run_missing (body question analysisContext : value) :
  Get body (js "question") = inr question ->
  Get body (js "analysisContext") = inr analysisContext ->
  ToBoolean question = false \/ ToBoolean analysisContext = false ->
  run (chat_handler w body) = State [ Respond 400 missing_fields_body ] false.
Proof.
  intros Hq Hc Hf. run_handler. rewrite Hq; simpl. rewrite Hc; simpl.
  destruct Hf as [-> | ->]; simpl; [|rewrite orb_true_r]; reflexivity.
Qed.

Lemma ask_run_missing (body question analysisContext : value) :
  Get body (js "question") = inr question ->
  Get body (js "analysisContext") = inr analysisContext ->
  ToBoolean question = false \/ ToBoolean analysisContext = false ->
  run (ask_handler w body) = State [ Respond 400 missing_fields_body ] false.
Proof.
  intros Hq Hc Hf. run_handler. rewrite Hq; simpl. rewrite Hc; simpl.
  destruct Hf as [-> | ->]; simpl; [|rewrite orb_true_r]; reflexivity.
Qed.

(** [/chat] when the prompt cannot be built. *)
Lemma chat_run_prompt_throws (body question analysisContext : value) (e : error) :
  Get body (js "question") = inr question ->
  Get body (js "analysisContext") = inr analysisContext ->
  ToBoolean question = true ->
  ToBoolean analysisContext = true ->
  chat_system_prompt analysisContext = inl e ->
  run (chat_handler w body) = State [ Respond 500 (chat_error_body e) ] false.
Proof.
  intros Hq Hc Tq Tc Hp. run_handler. rewrite Hq; simpl. rewrite Hc; simpl.
  rewrite Tq, Tc; simpl. rewrite Hp; simpl. reflexivity.
Qed.

(** [/ask] when the structural check rejects the context. *)
Lemma ask_run_invalid (body question analysisContext : value) :
  Get body (js "question") = inr question ->
  Get body (js "analysisContext") = inr analysisContext ->
  ToBoolean question = true ->
  ToBoolean analysisContext = true ->
  invalid_structure analysisContext = inr true ->
  run (ask_handler w body) = State [ Respond 400 invalid_structure_body ] false.
Proof.
  intros Hq Hc Tq Tc Hi. run_handler. rewrite Hq; simpl. rewrite Hc; simpl.
  rewrite Tq, Tc; simpl. rewrite Hi; simpl. reflexivity.
Qed.

(** [/ask] past the structural check: no response is a 400. *)
Lemma ask_run_valid (body question analysisContext : value) :
  Get body (js "question") = inr question ->
  Get body (js "analysisContext") = inr analysisContext ->
  ToBoolean question = true ->
  ToBoolean analysisContext = true ->
  invalid_structure analysisContext = inr false ->
  forall n b, In (n, b) (responses (run (ask_handler w body))) -> n <> 400.
Proof.
  intros Hq Hc Tq Tc Hi n b. run_handler. rewrite Hq; simpl. rewrite Hc; simpl.
  rewrite Tq, Tc; simpl. rewrite Hi; simpl.
  destruct (ask_system_prompt analysisContext) as [e|prompt]; simpl;
    [intros; no_such_response|].
  destruct (chat_completion w _) as [e|content]; simpl;
    [intros; no_such_response|].
  destruct (parse_content content) as [e|analysis]; simpl;
    [|intros; no_such_response].
  destruct (content_substring content) as [e'|head]; simpl;
    intros; no_such_response.
Qed.

(** [/ask] when the reply is a string that does not parse. *)
Lemma ask_run_parse_failure (body question analysisContext : value)
  (prompt reply : jsstring) (e : error) :
  Get body (js "question") = inr question ->
  Get body (js "analysisContext") = inr analysisContext ->
  ToBoolean question = true ->
  ToBoolean analysisContext = true ->
  invalid_structure analysisContext = inr false ->
  ask_system_prompt analysisContext = inr prompt ->
  chat_completion w (chat_request prompt question true) = inr (VString reply) ->
  JSON_parse reply = inl e ->
  run (ask_handler w body) =
    State [ ChatCompletion (chat_request prompt question true);
            Respond 200
              (ask_success w question
                 (fallback_analysis (JsString.substring0 500 reply))) ] false.
Proof.
  intros Hq Hc Tq Tc Hi Hp Hl He. run_handler.
  rewrite Hq; simpl. rewrite Hc; simpl. rewrite Tq, Tc; simpl.
  rewrite Hi; simpl. rewrite Hp; simpl. rewrite Hl; simpl.
  unfold parse_content. simpl. rewrite He; simpl. reflexivity.
Qed.

(** [/ask] when the reply parses: the parsed value is passed on as it
    is, whatever its shape. *)
Lemma ask_run_parsed (body question analysisContext : value)
  (prompt : jsstring) (content analysis : value) :
  Get body (js "question") = inr question ->
  Get body (js "analysisContext") = inr analysisContext ->
  ToBoolean question = true ->
  ToBoolean analysisContext = true ->
  invalid_structure analysisContext = inr false ->
  ask_system_prompt analysisContext = inr prompt ->
  chat_completion w (chat_request prompt question true) = inr content ->
  parse_content content = inr analysis ->
  run (ask_handler w body) =
    State [ ChatCompletion (chat_request prompt question true);
            Respond 200 (ask_success w question analysis) ] false.
Proof.
  intros Hq Hc Tq Tc Hi Hp Hl He. run_handler.
  rewrite Hq; simpl. rewrite Hc; simpl. rewrite Tq, Tc; simpl.
  rewrite Hi; simpl. rewrite Hp; simpl. rewrite Hl; simpl.
  rewrite He; simpl. reflexivity.
Qed.

(** Whatever the body and the collaborators, [/chat] and [/ask] send
    exactly one response and end normally. *)
Lemma chat_responds_once (body : value) :
  List.length (responses (run (chat_handler w body))) = 1
  /\ snd (chat_handler w body initial) = inr tt.
Proof.
  run_handler.
  destruct (Get body (js "question")) as [e|question]; simpl;
    [split; reflexivity|].
  destruct (Get body (js "analysisContext")) as [e|analysisContext]; simpl;
    [split; reflexivity|].
  destruct (negb (ToBoolean question) || negb (ToBoolean analysisContext));
    simpl; [split; reflexivity|].
  destruct (chat_system_prompt analysisContext); simpl; [split; reflexivity|].
  destruct (chat_completion w _); simpl; split; reflexivity.
Qed.

Lemma ask_responds_once (body : value) :
  List.length (responses (run (ask_handler w body))) = 1
  /\ snd (ask_handler w body initial) = inr tt.
Proof.
  run_handler.
  destruct (Get body (js "question")) as [e|question]; simpl;
    [split; reflexivity|].
  destruct (Get body (js "analysisContext")) as [e|analysisContext]; simpl;
    [split; reflexivity|].
  destruct (negb (ToBoolean question) || negb (ToBoolean analysisContext));
    simpl; [split; reflexivity|].
  destruct (invalid_structure analysisContext) as [e|[|]]; simpl;
    try (split; reflexivity).
  destruct (ask_system_prompt analysisContext); simpl; [split; reflexivity|].
  destruct (chat_completion w _) as [e|content]; simpl; [split; reflexivity|].
  destruct (parse_content content); simpl; [|split; reflexivity].
  destruct (content_substring content); simpl; split; reflexivity.
Qed.

(** A chat-completion call of [/ask] was preceded by both checks and by
    the construction of the prompt. *)
Lemma ask_completion_inv (body request : value) :
  In (ChatCompletion request) (events (run (ask_handler w body))) ->
  exists question analysisContext prompt,
    Get body (js "question") = inr question /\
    Get body (js "analysisContext") = inr analysisContext /\
    ToBoolean question = true /\
    ToBoolean analysisContext = true /\
    invalid_structure analysisContext = inr false /\
    ask_system_prompt analysisContext = inr prompt /\
    request = chat_request prompt question true.
Proof.
  run_handler.
  destruct (Get body (js "question")) as [e|question]; simpl;
    [intros [H|[]]; discriminate|].
  destruct (Get body (js "analysisContext")) as [e|analysisContext]; simpl;
    [intros [H|[]]; discriminate|].
  destruct (ToBoolean question) eqn:Tq; simpl;
    [|intros [H|[]]; discriminate].
  destruct (ToBoolean analysisContext) eqn:Tc; simpl;
    [|intros [H|[]]; discriminate].
  destruct (invalid_structure analysisContext) as [e|[|]] eqn:Hi; simpl;
    try (intros [H|[]]; discriminate).
  destruct (ask_system_prompt analysisContext) as [e|prompt] eqn:Hp; simpl;
    [intros [H|[]]; discriminate|].
  intros Hin. exists question, analysisContext, prompt.
  repeat split; auto.
  destruct (chat_completion w _) as [e|content]; simpl in Hin.
  - destruct Hin as [H|[H|[]]]; congruence.
  - destruct (parse_content content); simpl in Hin.
    + destruct (content_substring content); simpl in Hin;
        destruct Hin as [H|[H|[]]]; congruence.
    + destruct Hin as [H|[H|[]]]; congruence.
Qed.

End QuestionFacts.

(* ================================================================= *)
(** ** Properties of [POST /upload] *)

Section UploadProperties.
Context {RT : Runtime}.
Variable w : World.

(** C2.  On the path where the OCR engine reads no text, the handler
    creates one worker and calls [terminate] on it twice: once in the
    empty-text branch, once more in the [finally] block, which still
    sees the worker in its variable.  The specification asks for
    exactly one release on every exit path. *)
Theorem upload_no_text_terminates_twice (f : File) (text : jsstring) :
  fs_access w (path f) = None ->
  createWorker w (js "eng") = None ->
  recognize w (path f) = inr text ->
  JsString.trim text = [] ->
  workers_created (run (upload_handler w None (Some f))) = 1
  /\ terminations (run (upload_handler w None (Some f))) = 2.
Proof.
  intros Ha Hc Hr Ht.
  rewrite (upload_run_no_text w f text Ha Hc Hr Ht). split; reflexivity.
Qed.

(** C5.  When the OCR engine returns a text that is empty once trimmed,
    the only response is a 400 whose body holds the status and the
    message "No text could be extracted from the image" and nothing
    else (no [error] member, no [data]); it is not the 500 of a
    processing error, and the chat-completion API is not called, so no
    text extraction and no analysis is produced. *)
Theorem upload_no_text_response (f : File) (text : jsstring) :
  fs_access w (path f) = None ->
  createWorker w (js "eng") = None ->
  recognize w (path f) = inr text ->
  JsString.trim text = [] ->
  responses (run (upload_handler w None (Some f)))
    = [ (400, VObject [ prop "status" (str "error");
                        prop "message"
                          (str "No text could be extracted from the image") ]) ]
  /\ (forall e, ~ In (500, processing_error_body w e)
                     (responses (run (upload_handler w None (Some f)))))
  /\ llm_calls (run (upload_handler w None (Some f))) = 0.
Proof.
  intros Ha Hc Hr Ht.
  rewrite (upload_run_no_text w f text Ha Hc Hr Ht).
  split; [reflexivity | split; [|reflexivity]].
  intros e [H|[]]. discriminate H.
Qed.

(** C6.  When the content returned by the model does not parse as
    JSON, [/upload] does not recover: its only response is the 500
    "Error processing image" that carries the name and the message of
    the parse error.  The parsing step of [/ask], given the same reply,
    answers 200 with the degraded analysis and does not throw. *)
Theorem upload_parse_failure_not_recovered (f : File) (text : jsstring)
  (content : value) (e : error) :
  fs_access w (path f) = None ->
  createWorker w (js "eng") = None ->
  recognize w (path f) = inr text ->
  JsString.trim text <> [] ->
  chat_completion w (chat_request upload_system_prompt (VString text) true)
    = inr content ->
  parse_content content = inl e ->
  responses (run (upload_handler w None (Some f)))
    = [ (500, VObject [ prop "status" (str "error");
                        prop "message" (str "Error processing image");
                        prop "error"
                          (VObject [ prop "type" (VString (name e));
                                     prop "details" (VString (message e));
                                     prop "timestamp" (VString (now w)) ]) ]) ]
  /\ (forall reply question st,
         content = VString reply ->
         ask_parse w question content st
           = (State (events st
                     ++ [ Respond 200
                            (ask_success w question
                               (fallback_analysis
                                  (JsString.substring0 500 reply))) ])
                (worker st),
              inr None)).
Proof.
  intros Ha Hc Hr Ht Hl Hp.
  rewrite (upload_run_parse_failure w f text content e Ha Hc Hr Ht Hl Hp).
  split; [reflexivity|].
  intros reply question st ->. run_handler. rewrite Hp. reflexivity.
Qed.

(** C4.  In every success payload, [wordCount] is the number of
    white-space-delimited tokens of [raw] and [characterCount] is the
    length of [raw] (its number of UTF-16 code units, the [length] of a
    JavaScript string): both are functions of [raw] alone, whatever code
    units it holds. *)
Theorem upload_success_metrics (err : option upload_error)
  (file : option File) (payload : value) :
  In (200, payload) (responses (run (upload_handler w err file))) ->
  exists raw file_info analysis,
    payload
    = VObject
        [ prop "status" (str "success");
          prop "message" (str "Image processed successfully");
          prop "data"
            (VObject
               [ prop "file" file_info;
                 prop "textExtraction"
                   (VObject
                      [ prop "raw" (VString raw);
                        prop "wordCount"
                          (VNumber (number_of_nat
                                      (List.length (JsString.tokens raw))));
                        prop "characterCount"
                          (VNumber (number_of_nat (List.length raw))) ]);
                 prop "analysis" analysis ]) ].
Proof.
  intros Hin.
  destruct (upload_success_inv w err file payload Hin)
    as (f & text & content & analysis & _ & _ & _ & _ & _ & Ht & _ & _ & ->).
  eexists text, _, _.
  unfold upload_success, upload_data, textExtraction_of, wordCount,
    characterCount.
  rewrite (JsStringFacts.split_trim_tokens text Ht). reflexivity.
Qed.

(** C10.  In every success payload, [wordCount] and [characterCount]
    are at least 1: a text that is empty once trimmed never reaches the
    success response. *)
Theorem upload_success_counts_positive (err : option upload_error)
  (file : option File) (payload : value) :
  In (200, payload) (responses (run (upload_handler w err file))) ->
  exists raw file_info analysis,
    payload
    = VObject
        [ prop "status" (str "success");
          prop "message" (str "Image processed successfully");
          prop "data"
            (VObject
               [ prop "file" file_info;
                 prop "textExtraction"
                   (VObject
                      [ prop "raw" (VString raw);
                        prop "wordCount"
                          (VNumber (number_of_nat (wordCount raw)));
                        prop "characterCount"
                          (VNumber (number_of_nat (characterCount raw))) ]);
                 prop "analysis" analysis ]) ]
    /\ 1 <= wordCount raw
    /\ 1 <= characterCount raw.
Proof.
  intros Hin.
  destruct (upload_success_inv w err file payload Hin)
    as (f & text & content & analysis & _ & _ & _ & _ & _ & Ht & _ & _ & ->).
  eexists text, _, _. split; [reflexivity|]. split.
  - apply JsStringFacts.split_ws_aux_length.
  - unfold characterCount.
    pose proof (JsStringFacts.trim_nonempty text Ht).
    destruct text; [congruence | simpl; lia].
Qed.

End UploadProperties.

(* ================================================================= *)
(** ** Properties of [POST /chat] and [POST /ask] *)

Section QuestionProperties.
Context {RT : Runtime}.
Variable w : World.

(** C7.  When the body of a request to [/chat] or to [/ask] omits
    [question] or [analysisContext], the only response is the 400
    "Question and analysis context are required", and the
    chat-completion API is not called. *)
Theorem chat_and_ask_missing_field (body question analysisContext : value) :
  Get body (js "question") = inr question ->
  Get body (js "analysisContext") = inr analysisContext ->
  question = VUndefined \/ analysisContext = VUndefined ->
  (responses (run (chat_handler w body))
     = [ (400, VObject [ prop "status" (str "error");
                         prop "message"
                           (str "Question and analysis context are required") ]) ]
   /\ llm_calls (run (chat_handler w body)) = 0)
  /\
  (responses (run (ask_handler w body))
     = [ (400, VObject [ prop "status" (str "error");
                         prop "message"
                           (str "Question and analysis context are required") ]) ]
   /\ llm_calls (run (ask_handler w body)) = 0).
Proof.
  intros Hq Hc Hmiss.
  assert (Hf : ToBoolean question = false \/ ToBoolean analysisContext = false)
    by (destruct Hmiss as [-> | ->]; auto).
  rewrite (chat_run_missing w body question analysisContext Hq Hc Hf).
  rewrite (ask_run_missing w body question analysisContext Hq Hc Hf).
  repeat split.
Qed.

(** C3, as the code has it.  For a request to [/ask] whose [question]
    and [analysisContext] are both present (count as true), some
    response is a 400 exactly when the context lacks the text
    extraction or lacks the analysis: one missing member is enough.  The
    response is then the 400 "Invalid analysis context structure", sent
    before any call to the chat-completion API.  Only the two members
    themselves are looked at. *)
Theorem ask_invalid_context_iff (body question analysisContext : value) :
  Get body (js "question") = inr question ->
  Get body (js "analysisContext") = inr analysisContext ->
  ToBoolean question = true ->
  ToBoolean analysisContext = true ->
  ((exists b, In (400, b) (responses (run (ask_handler w body))))
   <-> (lacks analysisContext "textExtraction" = true
        \/ lacks analysisContext "analysis" = true))
  /\
  (lacks analysisContext "textExtraction" = true
   \/ lacks analysisContext "analysis" = true ->
   responses (run (ask_handler w body))
     = [ (400, VObject [ prop "status" (str "error");
                         prop "message"
                           (str "Invalid analysis context structure") ]) ]
   /\ llm_calls (run (ask_handler w body)) = 0).
Proof.
  intros Hq Hc Tq Tc.
  pose proof (truthy_not_nullish _ Tc) as Hn.
  destruct (Get_not_nullish _ (js "textExtraction") Hn) as (te & Hte).
  destruct (Get_not_nullish _ (js "analysis") Hn) as (an & Han).
  pose proof (invalid_structure_members _ _ _ Hte Han) as Hi.
  unfold lacks. rewrite Hte, Han.
  destruct (negb (ToBoolean te) || negb (ToBoolean an)) eqn:E.
  - rewrite (ask_run_invalid w body question analysisContext Hq Hc Tq Tc Hi).
    apply orb_true_iff in E.
    split; [split; [intros _; exact E|]|]; intros _.
    + eexists; left; reflexivity.
    + split; reflexivity.
  - apply orb_false_iff in E. destruct E as [E1 E2].
    split.
    + split.
      * intros (b & Hin).
        now elim (ask_run_valid w body question analysisContext
                    Hq Hc Tq Tc Hi 400 b Hin).
      * intros [H|H]; congruence.
    + intros [H|H]; congruence.
Qed.

(** C9, as the code has it.  For a request to [/chat] whose [question]
    and [analysisContext] are both present (count as true) and whose
    context has no text extraction or no analysis (the member is absent
    or [null]), building the system prompt throws, the only response is
    the 500 "Error processing chat request" with the message of the
    exception, and the chat-completion API is not called. *)
Theorem chat_missing_subobject_is_500
  (body question analysisContext textExtraction analysis : value) :
  Get body (js "question") = inr question ->
  Get body (js "analysisContext") = inr analysisContext ->
  ToBoolean question = true ->
  ToBoolean analysisContext = true ->
  Get analysisContext (js "textExtraction") = inr textExtraction ->
  Get analysisContext (js "analysis") = inr analysis ->
  nullish textExtraction = true \/ nullish analysis = true ->
  exists e,
    chat_system_prompt analysisContext = inl e
    /\ responses (run (chat_handler w body))
       = [ (500, VObject [ prop "status" (str "error");
                           prop "message" (str "Error processing chat request");
                           prop "error" (VString (message e)) ]) ]
    /\ llm_calls (run (chat_handler w body)) = 0.
Proof.
  intros Hq Hc Tq Tc Hte Han Hmiss.
  destruct (chat_system_prompt_throws _ _ _ Hte Han Hmiss) as (e & He).
  exists e. split; [exact He|].
  rewrite (chat_run_prompt_throws w body question analysisContext e
             Hq Hc Tq Tc He).
  split; reflexivity.
Qed.

(** C1, as the code has it.  Whenever [/ask] called the chat-completion
    API and the reply is a string that [JSON.parse] rejects, the only
    response is a success (200) whose analysis has: [answer] made of the
    explanatory prefix, the first 500 code units of the reply and a
    final ["..."]; empty [evidence] and [relatedTopics]; [confidence]
    "Low"; and the single suggestion "Try asking a more specific
    question".  No error response is sent. *)
Theorem ask_parse_failure_degraded_response (body request : value)
  (reply : jsstring) (e : error) :
  In (ChatCompletion request) (events (run (ask_handler w body))) ->
  chat_completion w request = inr (VString reply) ->
  JSON_parse reply = inl e ->
  exists question,
    Get body (js "question") = inr question
    /\ responses (run (ask_handler w body))
       = [ (200,
            VObject
              [ prop "status" (str "success");
                prop "timestamp" (VString (now w));
                prop "question" question;
                prop "analysis"
                  (VObject
                     [ prop "answer"
                         (VString
                            (js "I couldn't format the answer properly, but here's the raw response: "
                             ++ firstn 500 reply ++ js "..."));
                       prop "evidence" (VArray []);
                       prop "confidence" (str "Low");
                       prop "relatedTopics" (VArray []);
                       prop "suggestions"
                         (VArray [ str "Try asking a more specific question" ])
                     ]) ]) ].
Proof.
  intros Hin Hl He.
  destruct (ask_completion_inv w body request Hin)
    as (question & analysisContext & prompt
        & Hq & Hc & Tq & Tc & Hi & Hp & ->).
  exists question. split; [exact Hq|].
  rewrite (ask_run_parse_failure w body question analysisContext prompt reply e
             Hq Hc Tq Tc Hi Hp Hl He).
  reflexivity.
Qed.

End QuestionProperties.

(* ================================================================= *)
(** ** From [/upload] to [/ask] *)

Section RoundTrip.
Context {RT : Runtime}.

(** The [data] of a success payload has both members that the
    structural check of [/ask] looks for, and both are objects. *)
Lemma upload_data_members (w : World) (f : File) (text : jsstring)
  (analysis : value) :
  Get (upload_success w f text analysis) (js "data")
    = inr (upload_data w f text analysis)
  /\ Get (upload_data w f text analysis) (js "textExtraction")
     = inr (textExtraction_of text)
  /\ Get (upload_data w f text analysis) (js "analysis")
     = inr (VObject (set_property (spread analysis) (js "timestamp")
                       (timestamp w))).
Proof. repeat split. Qed.

(** The same members after a passage through JSON. *)
Lemma upload_data_members_wire (w : World) (f : File) (text : jsstring)
  (analysis : value) :
  exists textExtraction analysis',
    Get (over_the_wire (upload_data w f text analysis)) (js "textExtraction")
      = inr (VObject textExtraction)
    /\ Get (over_the_wire (upload_data w f text analysis)) (js "analysis")
       = inr (VObject analysis').
Proof. eexists _, _. split; reflexivity. Qed.

(** C8.  The [data] object of every success payload of [/upload], sent
    back as the [analysisContext] of a request to [/ask] with a
    question, either as the very value or as what it becomes once
    serialised to JSON and read back, passes the structural check: the
    check finds the context valid and no response of [/ask] is a 400. *)
Theorem upload_data_accepted_by_ask (w : World) (err : option upload_error)
  (file : option File) (payload : value) :
  In (200, payload) (responses (run (upload_handler w err file))) ->
  exists data,
    Get payload (js "data") = inr data
    /\ forall analysisContext,
         analysisContext = data \/ analysisContext = over_the_wire data ->
         invalid_structure analysisContext = inr false
         /\ forall (w' : World) (question : value),
              ToBoolean question = true ->
              forall n b,
                In (n, b)
                   (responses
                      (run (ask_handler w'
                              (VObject
                                 [ prop "question" question;
                                   prop "analysisContext" analysisContext ])))) ->
                n <> 400.
Proof.
  intros Hin.
  destruct (upload_success_inv w err file payload Hin)
    as (f & text & content & analysis & _ & _ & _ & _ & _ & _ & _ & _ & ->).
  destruct (upload_data_members w f text analysis) as (Hd & Hte & Han).
  destruct (upload_data_members_wire w f text analysis)
    as (te' & an' & Hte' & Han').
  exists (upload_data w f text analysis).
  split; [exact Hd|].
  intros analysisContext Hctx.
  assert (Hi : invalid_structure analysisContext = inr false).
  { destruct Hctx as [-> | ->].
    - rewrite (invalid_structure_members _ _ _ Hte Han); reflexivity.
    - rewrite (invalid_structure_members _ _ _ Hte' Han'); reflexivity. }
  split; [exact Hi|].
  intros w' question Tq n b.
  apply (ask_run_valid w' _ question analysisContext); auto;
    destruct Hctx as [-> | ->]; reflexivity.
Qed.

End RoundTrip.

(* ================================================================= *)
(** ** The handlers on the example requests *)

Section Evaluated.

Import Examples.

Let rt : Runtime := ExampleRuntime.runtime.
#[local] Existing Instance ExampleRuntime.runtime.

(** The example texts: [" Caf<e-acute>  <U+1F600>"] and a line feed has
    two words and ten code units. *)
Example unicode_text_counts :
  wordCount unicode_text = 2 /\ characterCount unicode_text = 10.
Proof. split; reflexivity. Qed.

Example prose_reply_rejected :
  @JSON_parse rt prose_reply = inl ExampleRuntime.syntax_error.
Proof. vm_compute. reflexivity. Qed.

Example json_reply_parsed : @JSON_parse rt json_reply = inr parsed_json_reply.
Proof. vm_compute. reflexivity. Qed.

(** C2 on the image without text. *)
Lemma upload_no_text_terminates_twice_witness :
  workers_created (run (@upload_handler rt blank_world None (Some image))) = 1
  /\ terminations (run (@upload_handler rt blank_world None (Some image))) = 2.
Proof.
  apply (@upload_no_text_terminates_twice rt blank_world image blank_text);
    reflexivity.
Defined.

(** C5 on the image without text. *)
Lemma upload_no_text_response_witness :
  responses (run (@upload_handler rt blank_world None (Some image)))
    = [ (400, VObject [ prop "status" (str "error");
                        prop "message"
                          (str "No text could be extracted from the image") ]) ]
  /\ (forall e, ~ In (500, processing_error_body blank_world e)
                     (responses (run (@upload_handler rt blank_world None
                                        (Some image)))))
  /\ llm_calls (run (@upload_handler rt blank_world None (Some image))) = 0.
Proof.
  apply (@upload_no_text_response rt blank_world image blank_text);
    reflexivity.
Defined.

(** C6 on the readable image analysed in prose. *)
Lemma upload_parse_failure_not_recovered_witness :
  responses (run (@upload_handler rt prose_world None (Some image)))
    = [ (500, VObject [ prop "status" (str "error");
                        prop "message" (str "Error processing image");
                        prop "error"
                          (VObject [ prop "type" (str "SyntaxError");
                                     prop "details"
                                       (str "Unexpected token in JSON");
                                     prop "timestamp" (VString instant) ]) ]) ]
  /\ (forall reply question st,
         VString prose_reply = VString reply ->
         @ask_parse rt prose_world question (VString prose_reply) st
           = (State (events st
                     ++ [ Respond 200
                            (ask_success prose_world question
                               (fallback_analysis
                                  (JsString.substring0 500 reply))) ])
                (worker st),
              inr None)).
Proof.
  apply (@upload_parse_failure_not_recovered rt prose_world image unicode_text
           (VString prose_reply) ExampleRuntime.syntax_error);
    try reflexivity.
  vm_compute. discriminate.
Defined.

(** C4 on the readable image with a JSON analysis. *)
Lemma upload_success_metrics_witness :
  exists raw file_info analysis,
    upload_success json_world image unicode_text parsed_json_reply
    = VObject
        [ prop "status" (str "success");
          prop "message" (str "Image processed successfully");
          prop "data"
            (VObject
               [ prop "file" file_info;
                 prop "textExtraction"
                   (VObject
                      [ prop "raw" (VString raw);
                        prop "wordCount"
                          (VNumber (number_of_nat
                                      (List.length (JsString.tokens raw))));
                        prop "characterCount"
                          (VNumber (number_of_nat (List.length raw))) ]);
                 prop "analysis" analysis ]) ].
Proof.
  apply (@upload_success_metrics rt json_world None (Some image)).
  vm_compute. left. reflexivity.
Defined.

(** C10 on the same upload. *)
Lemma upload_success_counts_positive_witness :
  exists raw file_info analysis,
    upload_success json_world image unicode_text parsed_json_reply
    = VObject
        [ prop "status" (str "success");
          prop "message" (str "Image processed successfully");
          prop "data"
            (VObject
               [ prop "file" file_info;
                 prop "textExtraction"
                   (VObject
                      [ prop "raw" (VString raw);
                        prop "wordCount"
                          (VNumber (number_of_nat (wordCount raw)));
                        prop "characterCount"
                          (VNumber (number_of_nat (characterCount raw))) ]);
                 prop "analysis" analysis ]) ]
    /\ 1 <= wordCount raw
    /\ 1 <= characterCount raw.
Proof.
  apply (@upload_success_counts_positive rt json_world None (Some image)).
  vm_compute. left. reflexivity.
Defined.

(** C8 on the same upload. *)
Lemma upload_data_accepted_by_ask_witness :
  exists data,
    Get (upload_success json_world image unicode_text parsed_json_reply)
        (js "data") = inr data
    /\ forall analysisContext,
         analysisContext = data \/ analysisContext = over_the_wire data ->
         invalid_structure analysisContext = inr false
         /\ forall (w' : World) (question : value),
              ToBoolean question = true ->
              forall n b,
                In (n, b)
                   (responses
                      (run (@ask_handler rt w'
                              (VObject
                                 [ prop "question" question;
                                   prop "analysisContext" analysisContext ])))) ->
                n <> 400.
Proof.
  apply (@upload_data_accepted_by_ask rt json_world None (Some image)).
  vm_compute. left. reflexivity.
Defined.

(** C7 on a body without a question. *)
Lemma chat_and_ask_missing_field_witness :
  (responses (run (@chat_handler rt prose_world request_without_question))
     = [ (400, VObject [ prop "status" (str "error");
                         prop "message"
                           (str "Question and analysis context are required") ]) ]
   /\ llm_calls (run (@chat_handler rt prose_world request_without_question)) = 0)
  /\
  (responses (run (@ask_handler rt prose_world request_without_question))
     = [ (400, VObject [ prop "status" (str "error");
                         prop "message"
                           (str "Question and analysis context are required") ]) ]
   /\ llm_calls (run (@ask_handler rt prose_world request_without_question)) = 0).
Proof.
  apply (@chat_and_ask_missing_field rt prose_world request_without_question
           VUndefined (VObject []));
    [reflexivity | reflexivity | left; reflexivity].
Defined.

(** C3: a context that has its text extraction and no analysis is
    rejected, although it does not lack both members. *)
Lemma ask_invalid_context_counterexample :
  let body := request a_question context_without_analysis in
  lacks context_without_analysis "textExtraction" = false
  /\ ~ ((exists b, In (400, b) (responses (run (@ask_handler rt prose_world body))))
        <-> (lacks context_without_analysis "textExtraction" = true
             /\ lacks context_without_analysis "analysis" = true)).
Proof.
  split; [reflexivity|].
  intros [Himp _].
  assert (H : exists b,
             In (400, b)
                (responses
                   (run (@ask_handler rt prose_world
                           (request a_question context_without_analysis)))))
    by (eexists; vm_compute; left; reflexivity).
  destruct (Himp H) as [Hte _]. vm_compute in Hte. discriminate Hte.
Qed.

(** C3, amended, on the same request. *)
Lemma ask_invalid_context_iff_witness :
  let body := request a_question context_without_analysis in
  ((exists b, In (400, b) (responses (run (@ask_handler rt prose_world body))))
   <-> (lacks context_without_analysis "textExtraction" = true
        \/ lacks context_without_analysis "analysis" = true))
  /\
  (lacks context_without_analysis "textExtraction" = true
   \/ lacks context_without_analysis "analysis" = true ->
   responses (run (@ask_handler rt prose_world body))
     = [ (400, VObject [ prop "status" (str "error");
                         prop "message"
                           (str "Invalid analysis context structure") ]) ]
   /\ llm_calls (run (@ask_handler rt prose_world body)) = 0).
Proof.
  apply (@ask_invalid_context_iff rt prose_world
           (request a_question context_without_analysis)
           a_question context_without_analysis);
    reflexivity.
Defined.

(** C9: a request to [/chat] that carries a context without text
    extraction, and no question, is answered 400, not 500. *)
Lemma chat_missing_subobject_counterexample :
  Get request_without_question (js "analysisContext") = inr (VObject [])
  /\ Get (VObject []) (js "textExtraction") = inr VUndefined
  /\ responses (run (@chat_handler rt prose_world request_without_question))
     = [ (400, missing_fields_body) ]
  /\ ~ (exists b,
          In (500, b)
             (responses (run (@chat_handler rt prose_world
                                request_without_question)))).
Proof.
  repeat split; try reflexivity.
  intros (b & Hin). vm_compute in Hin. destruct Hin as [H|[]]. discriminate H.
Qed.

(** C9, amended, on a request with a question and a context without
    analysis. *)
Lemma chat_missing_subobject_is_500_witness :
  exists e,
    chat_system_prompt context_without_analysis = inl e
    /\ responses (run (@chat_handler rt prose_world
                         (request a_question context_without_analysis)))
       = [ (500, VObject [ prop "status" (str "error");
                           prop "message" (str "Error processing chat request");
                           prop "error" (VString (message e)) ]) ]
    /\ llm_calls (run (@chat_handler rt prose_world
                         (request a_question context_without_analysis))) = 0.
Proof.
  apply (@chat_missing_subobject_is_500 rt prose_world
           (request a_question context_without_analysis)
           a_question context_without_analysis
           (VObject [ prop "raw" (str "Hello world") ]) VUndefined);
    try reflexivity.
  right. reflexivity.
Defined.

(** C1: the answer of the degraded response is not the prefix followed
    by the head of the reply; three dots follow. *)
Lemma ask_fallback_answer_counterexample :
  let body := request a_question good_context in
  @JSON_parse rt prose_reply = inl ExampleRuntime.syntax_error
  /\ (exists request,
        In (ChatCompletion request)
           (events (run (@ask_handler rt prose_world body)))
        /\ chat_completion prose_world request = inr (VString prose_reply))
  /\ responses (run (@ask_handler rt prose_world body))
     <> [ (200, ask_success prose_world a_question
                  (claimed_fallback_analysis prose_reply)) ].
Proof.
  split; [vm_compute; reflexivity|]. split.
  - eexists. split; [vm_compute; left; reflexivity | reflexivity].
  - intros H. vm_compute in H. discriminate H.
Qed.

(** C1, amended, on the same request. *)
Lemma ask_parse_failure_degraded_response_witness :
  exists question,
    Get (request a_question good_context) (js "question") = inr question
    /\ responses (run (@ask_handler rt prose_world
                         (request a_question good_context)))
       = [ (200,
            VObject
              [ prop "status" (str "success");
                prop "timestamp" (VString instant);
                prop "question" question;
                prop "analysis"
                  (VObject
                     [ prop "answer"
                         (VString
                            (js "I couldn't format the answer properly, but here's the raw response: "
                             ++ firstn 500 prose_reply ++ js "..."));
                       prop "evidence" (VArray []);
                       prop "confidence" (str "Low");
                       prop "relatedTopics" (VArray []);
                       prop "suggestions"
                         (VArray [ str "Try asking a more specific question" ])
                     ]) ]) ].
Proof.
  eapply (@ask_parse_failure_degraded_response rt prose_world
            (request a_question good_context) _ prose_reply
            ExampleRuntime.syntax_error).
  - vm_compute. left. reflexivity.
  - reflexivity.
  - vm_compute. reflexivity.
Defined.

End Evaluated.

(* ================================================================= *)
(** ** Further properties of [POST /upload] *)

Section ObjectFacts.



(** Every token has at least one code unit. *)
Lemma tokens_aux_length (s cur : jsstring) :
  List.length (JsString.tokens_aux cur s)
    <= List.length s + match cur with [] => 0 | _ => 1 end.
Proof.
  revert cur; induction s as [|c r IH]; intros cur; simpl.
  - destruct cur; simpl; lia.
  - destruct (JsString.is_ws c).
    + destruct cur; simpl; specialize (IH []); simpl in IH; lia.
    + specialize (IH (c :: cur)); simpl in IH; lia.
Qed.

End ObjectFacts.


Section UploadMore.
Context {RT : Runtime}.
Variable w : World.

(** X1.  When multer reports an error, or leaves no file, the callback
    does nothing but answer 400: it does not look at the file system,
    creates no worker and calls neither the OCR engine nor the
    chat-completion API.  The message is "File upload error" for an
    error of multer's own, the message of the error for any other, and
    "No image file provided" when there is no file. *)
Theorem upload_rejected_outright (err : option upload_error)
  (file : option File) :
  err <> None \/ file = None ->
  exists body,
    events (run (upload_handler w err file)) = [ Respond 400 body ]
    /\ Get body (js "status") = inr (str "error")
    /\ Get body (js "message")
       = inr (match err with
              | Some (MulterError _) => str "File upload error"
              | Some (OtherError e) => VString (message e)
              | None => str "No image file provided"
              end).
Proof.
  intros H.
  destruct err as [[e|e]|]; [eexists; repeat split .. |].
  destruct file as [f|]; [|eexists; repeat split].
  destruct H as [H|H]; [now elim H | discriminate H].
Qed.

(** X2.  A 500 from the callback always describes the exception that
    caused it: its body is "Error processing image" with the name and
    the message of what the file system, [createWorker], the
    recognition, the chat-completion API or [JSON.parse] threw. *)
Theorem upload_failure_reports_error (err : option upload_error)
  (file : option File) (body : value) :
  In (500, body) (responses (run (upload_handler w err file))) ->
  exists f e,
    file = Some f
    /\ body
       = VObject [ prop "status" (str "error");
                   prop "message" (str "Error processing image");
                   prop "error"
                     (VObject [ prop "type" (VString (name e));
                                prop "details" (VString (message e));
                                prop "timestamp" (VString (now w)) ]) ]
    /\ (fs_access w (path f) = Some e
        \/ createWorker w (js "eng") = Some e
        \/ recognize w (path f) = inl e
        \/ exists text,
             recognize w (path f) = inr text
             /\ (chat_completion w
                   (chat_request upload_system_prompt (VString text) true)
                 = inl e
                 \/ exists content,
                      chat_completion w
                        (chat_request upload_system_prompt (VString text) true)
                      = inr content
                      /\ parse_content content = inl e)).
Proof.
  destruct err as [[e|e]|]; [simpl; intros; no_such_response .. |].
  destruct file as [f|]; [|simpl; intros; no_such_response].
  run_handler.
  destruct (fs_access w (path f)) as [e|] eqn:Ha; simpl.
  { intros [H|[]]. inversion H; subst. exists f, e. repeat split; auto. }
  destruct (createWorker w (js "eng")) as [e|] eqn:Hc; simpl.
  { intros [H|[]]. inversion H; subst. exists f, e. repeat split; auto. }
  destruct (recognize w (path f)) as [e|text] eqn:Hr; simpl.
  { intros [H|[]]. inversion H; subst. exists f, e. repeat split; auto. }
  destruct (JsString.trim text) eqn:Ht; simpl;
    [intros; no_such_response|].
  destruct (chat_completion w _) as [e|content] eqn:Hl; simpl.
  { intros [H|[]]. inversion H; subst. exists f, e.
    repeat split; auto. do 3 right. exists text. auto. }
  destruct (parse_content content) as [e|analysis] eqn:Hp; simpl;
    [|intros; no_such_response].
  intros [H|[]]. inversion H; subst. exists f, e.
  repeat split; auto. do 3 right. exists text. split; auto.
  right. exists content. auto.
Qed.

(** X5.  The chat-completion API is called at most once per upload, and
    only after the OCR engine read a text that is not blank; the user
    message of the request is that text as the engine gave it, not
    trimmed, and the request asks for a JSON object. *)
Theorem upload_completion_only_for_text (err : option upload_error)
  (file : option File) :
  llm_calls (run (upload_handler w err file)) <= 1
  /\ forall request,
       In (ChatCompletion request) (events (run (upload_handler w err file))) ->
       exists f text,
         err = None /\ file = Some f
         /\ recognize w (path f) = inr text
         /\ JsString.trim text <> []
         /\ request
            = VObject
                [ prop "messages"
                    (VArray
                       [ VObject [ prop "role" (str "system");
                                   prop "content" (VString upload_system_prompt) ];
                         VObject [ prop "role" (str "user");
                                   prop "content" (VString text) ] ]);
                  prop "model" (str "gpt-3.5-turbo");
                  prop "response_format"
                    (VObject [ prop "type" (str "json_object") ]) ].
Proof.
  assert (Hfew : forall l,
             (forall request, In (ChatCompletion request) l -> False) ->
             forall request, In (ChatCompletion request) l ->
             exists (f : File) (text : jsstring),
               err = None /\ file = Some f
               /\ recognize w (path f) = inr text
               /\ JsString.trim text <> []
               /\ request
                  = chat_request upload_system_prompt (VString text) true)
    by (intros l Hl request Hin; now elim (Hl request Hin)).
  destruct err as [[e|e]|];
    [split; [unfold run, llm_calls; simpl; lia
            | apply Hfew; simpl; intros ? [H|[]]; discriminate H] .. |].
  destruct file as [f|];
    [|split; [unfold run, llm_calls; simpl; lia
             | apply Hfew; simpl; intros ? [H|[]]; discriminate H]].
  clear Hfew. run_handler.
  destruct (fs_access w (path f)) as [e|]; simpl;
    [split; [unfold llm_calls; simpl; lia
            | intros ? [H|[H|[]]]; discriminate H]|].
  destruct (createWorker w (js "eng")) as [e|]; simpl;
    [split; [unfold llm_calls; simpl; lia
            | intros ? [H|[H|[H|[]]]]; discriminate H]|].
  destruct (recognize w (path f)) as [e|text] eqn:Hr; simpl;
    [split; [unfold llm_calls; simpl; lia
            | intros ? [H|[H|[H|[H|[H|[]]]]]]; discriminate H]|].
  destruct (JsString.trim text) eqn:Ht; simpl;
    [split; [unfold llm_calls; simpl; lia
            | intros ? [H|[H|[H|[H|[H|[H|[]]]]]]]; discriminate H]|].
  destruct (chat_completion w _) as [e|content]; simpl.
  - split; [unfold llm_calls; simpl; lia|].
    intros request [H|[H|[H|[H|[H|[H|[]]]]]]]; try discriminate H.
    inversion H; subst. exists f, text.
    repeat split; auto. rewrite Ht; discriminate.
  - destruct (parse_content content); simpl;
      (split; [unfold llm_calls; simpl; lia|]);
      intros request [H|[H|[H|[H|[H|[H|[]]]]]]]; try discriminate H;
      inversion H; subst; exists f, text;
      repeat split; auto; rewrite Ht; discriminate.
Qed.


(** X7.  In every success payload the word count is at most the
    character count. *)
Theorem upload_words_at_most_characters (err : option upload_error)
  (file : option File) (payload : value) :
  In (200, payload) (responses (run (upload_handler w err file))) ->
  exists raw words characters file_info analysis,
    payload
    = VObject
        [ prop "status" (str "success");
          prop "message" (str "Image processed successfully");
          prop "data"
            (VObject
               [ prop "file" file_info;
                 prop "textExtraction"
                   (VObject
                      [ prop "raw" (VString raw);
                        prop "wordCount" (VNumber (number_of_nat words));
                        prop "characterCount"
                          (VNumber (number_of_nat characters)) ]);
                 prop "analysis" analysis ]) ]
    /\ words <= characters.
Proof.
  intros Hin.
  destruct (upload_success_inv w err file payload Hin)
    as (f & text & content & parsed & _ & _ & _ & _ & _ & Ht & _ & _ & ->).
  exists text, (wordCount text), (characterCount text).
  eexists _, _. split; [reflexivity|].
  unfold wordCount, characterCount.
  rewrite (JsStringFacts.split_trim_tokens text Ht).
  pose proof (tokens_aux_length text []) as H. simpl in H.
  unfold JsString.tokens. lia.
Qed.


End UploadMore.

(* ================================================================= *)
(** ** The configuration of multer *)

Section MulterFacts.

Lemma startsWith_prefix (prefix s : jsstring) :
  startsWith prefix s = true <-> exists rest, s = prefix ++ rest.
Proof.
  revert s; induction prefix as [|x p IH]; intros s; simpl.
  - split; eauto.
  - destruct s as [|y r].
    + split; [discriminate | intros (rest & H); discriminate H].
    + rewrite andb_true_iff, N.eqb_eq, IH. split.
      * intros (-> & rest & ->). eauto.
      * intros (rest & H). inversion H; subst. eauto.
Qed.

Lemma js_cons (a : ascii) (s : string) :
  js (String a s) = N_of_ascii a :: js s.
Proof. reflexivity. Qed.

Lemma js_injective (a b : string) : js a = js b -> a = b.
Proof.
  revert b; induction a as [|x a IH]; intros [|y b]; try discriminate; auto.
  rewrite !js_cons. intros H. inversion H as [[Hx Hr]].
  f_equal; [|now apply IH].
  rewrite <- (ascii_N_embedding x), <- (ascii_N_embedding y). now f_equal.
Qed.

(** A decimal numeral has no hyphen. *)
Lemma numeral_without_hyphen (d : Decimal.uint) :
  Forall (fun c => c <> 45%N) (js (NilEmpty.string_of_uint d)).
Proof.
  induction d; simpl NilEmpty.string_of_uint;
    [constructor | rewrite js_cons; constructor; [discriminate | assumption] ..].
Qed.

Lemma decimal_injective (m n : N) : decimal m = decimal n -> m = n.
Proof.
  unfold decimal. intros H. apply js_injective in H.
  apply DecimalN.Unsigned.to_uint_inj.
  pose proof (NilEmpty.usu (N.to_uint m)) as Hm.
  pose proof (NilEmpty.usu (N.to_uint n)) as Hn.
  rewrite H in Hm. congruence.
Qed.

(** Two strings cut at their first hyphen. *)
Lemma cut_at_hyphen (a b r s : jsstring) :
  Forall (fun c => c <> 45%N) a ->
  Forall (fun c => c <> 45%N) b ->
  a ++ 45%N :: r = b ++ 45%N :: s ->
  a = b /\ r = s.
Proof.
  intros Ha; revert b; induction Ha as [|x a Hx Ha IH]; intros b Hb H.
  - destruct Hb as [|y b Hy Hb]; simpl in H.
    + inversion H; auto.
    + inversion H; subst. now elim Hy.
  - destruct Hb as [|y b Hy Hb]; simpl in H.
    + inversion H; subst. now elim Hx.
    + inversion H; subst. destruct (IH b Hb H2) as [-> ->]. auto.
Qed.

Context {RT : Runtime}.

(** X8.  The file filter accepts exactly the files whose MIME type
    begins with [image/].  For any other file it gives an error which,
    handed to the callback of the upload route, is answered by the 400
    "Only image files are allowed!", and nothing else is done. *)
Theorem fileFilter_accepts_images_only (mimetype : jsstring) :
  (Multer.fileFilter mimetype = inr true
   <-> exists subtype, mimetype = js "image/" ++ subtype)
  /\ (forall e,
         Multer.fileFilter mimetype = inl e ->
         forall (w : World) (file : option File),
           events (run (upload_handler w (Some (OtherError e)) file))
           = [ Respond 400
                 (VObject
                    [ prop "status" (str "error");
                      prop "message" (str "Only image files are allowed!");
                      prop "error"
                        (VObject
                           [ prop "type" (str "Error");
                             prop "details"
                               (str "Only image files are allowed!");
                             prop "timestamp" (VString (now w)) ]) ]) ]).
Proof.
  unfold Multer.fileFilter. rewrite <- startsWith_prefix.
  destruct (startsWith (js "image/") mimetype); simpl; split.
  - tauto.
  - discriminate.
  - split; discriminate.
  - intros e [= <-] w file. reflexivity.
Qed.

(** X9.  The name under which an upload is stored determines both the
    time of receipt and the original name: two uploads get the same
    stored name exactly when they arrive in the same millisecond under
    the same original name. *)
Theorem filename_injective (t1 t2 : N) (name1 name2 : jsstring) :
  Multer.filename t1 name1 = Multer.filename t2 name2
  <-> t1 = t2 /\ name1 = name2.
Proof.
  split; [|intros [-> ->]; reflexivity].
  unfold Multer.filename. intros H.
  change (js "-" ++ name1) with (45%N :: name1) in H.
  change (js "-" ++ name2) with (45%N :: name2) in H.
  apply cut_at_hyphen in H; try apply numeral_without_hyphen.
  destruct H as [Hd ->]. split; [now apply decimal_injective | reflexivity].
Qed.

(** X10.  [destination] fails only when the directory is missing and
    cannot be made.  Otherwise it answers ['uploads/'], the directory
    exists afterwards, nothing that existed is lost, and a further call
    changes nothing and cannot fail. *)
Theorem destination_ensures_directory (paths : list jsstring)
  (mkdir : option error) :
  match Multer.destination paths mkdir with
  | inl e => mkdir = Some e /\ Multer.existsSync paths (js "uploads") = false
  | inr (paths', directory) =>
      directory = js "uploads/"
      /\ Multer.existsSync paths' (js "uploads") = true
      /\ (forall p, In p paths -> In p paths')
      /\ (Multer.existsSync paths (js "uploads") = true -> paths' = paths)
      /\ forall mkdir',
           Multer.destination paths' mkdir' = inr (paths', js "uploads/")
  end.
Proof.
  unfold Multer.destination.
  destruct (Multer.existsSync paths (js "uploads")) eqn:E; simpl.
  - rewrite E. repeat split; auto.
  - destruct mkdir as [e|]; [auto|].
    assert (E' : Multer.existsSync (paths ++ [js "uploads"]) (js "uploads")
                 = true).
    { unfold Multer.existsSync. rewrite existsb_app. simpl.
      now rewrite orb_true_r. }
    rewrite E'. repeat split; auto.
    + intros p Hp. apply in_or_app. auto.
    + discriminate.
Qed.

End MulterFacts.

(* ================================================================= *)
(** ** The error middleware, start-up and the language-data script *)

Section ServiceFacts.
Context {RT : Runtime}.
Variable w : World.

(** X11.  The error middleware always answers 500, with a message
    that is never empty: the message of the error, or "Internal server
    error" when the error has none; the name and the message of the
    error are reported beside it. *)
Theorem error_middleware_answers_500 (err : error) :
  exists text,
    events (run (error_middleware w err))
    = [ Respond 500
          (VObject [ prop "status" (str "error");
                     prop "message" (VString text);
                     prop "error"
                       (VObject [ prop "type" (VString (name err));
                                  prop "details" (VString (message err));
                                  prop "timestamp" (VString (now w)) ]) ]) ]
    /\ text <> []
    /\ (message err <> [] -> text = message err)
    /\ (message err = [] -> text = js "Internal server error").
Proof.
  unfold error_middleware, js_or. simpl ToBoolean.
  destruct (message err) as [|c m] eqn:E.
  - exists (js "Internal server error").
    repeat split; auto; try discriminate. intros H; now elim H.
  - exists (c :: m). repeat split; auto; discriminate.
Qed.

(** X13.  The language-data script terminates once every worker it
    creates, and it calls [process.exit], with code 1, exactly when the
    worker cannot be created; in that case it terminates nothing.  No
    exception escapes it. *)
Theorem download_language_data_outcome :
  terminations (fst (download_language_data w initial))
    = workers_created (fst (download_language_data w initial))
  /\ (snd (download_language_data w initial) = inr (Some 1)
      <-> createWorker w (js "eng") <> None)
  /\ (snd (download_language_data w initial) = inr None
      <-> createWorker w (js "eng") = None)
  /\ (createWorker w (js "eng") = None ->
      workers_created (fst (download_language_data w initial)) = 1).
Proof.
  unfold download_language_data. run_handler.
  destruct (createWorker w (js "eng")); simpl;
    repeat split; auto; try discriminate; try (intros H; now elim H).
Qed.

End ServiceFacts.

Section StartupFacts.

Import Startup.

(** X12.  The service starts listening (on port 3000) exactly when the
    credential is set and not empty, the client could be constructed
    and the uploads directory exists or could be made.  Without the
    credential it never listens and never touches the file system: the
    process exits with code 1, unless the constructor of the client
    threw first. *)
Theorem startup_requires_credential (b : Boot) :
  (snd (startup b) = Serving
   <-> (exists key, OPENAI_API_KEY b = Some key /\ key <> [])
       /\ new_OpenAI b (env_value (OPENAI_API_KEY b)) = None
       /\ (Multer.existsSync (paths b) (uploadsDir b) = true
           \/ mkdirSync b (uploadsDir b) = None))
  /\ (forall port,
         In (Listen port) (fst (startup b))
         <-> port = 3000 /\ snd (startup b) = Serving)
  /\ (OPENAI_API_KEY b = None \/ OPENAI_API_KEY b = Some [] ->
      (forall path, ~ In (Mkdir path) (fst (startup b)))
      /\ (snd (startup b) = Exited 1
          \/ exists e, new_OpenAI b (env_value (OPENAI_API_KEY b)) = Some e
                       /\ snd (startup b) = Crashed e)).
Proof.
  unfold startup.
  destruct (new_OpenAI b (env_value (OPENAI_API_KEY b))) as [e|] eqn:Hnew.
  { simpl. split; [|split].
    - split; [discriminate | intros (_ & H & _); discriminate H].
    - intros port. split; [intros [H|[]]; discriminate H
                          | intros (_ & H); discriminate H].
    - intros _. split; [intros path [H|[]]; discriminate H | eauto]. }
  destruct (OPENAI_API_KEY b) as [[|c key]|] eqn:Hkey; simpl.
  - split; [|split].
    + split; [discriminate | intros ((k & [= <-] & H) & _); now elim H].
    + intros port. split; [intros [H|[H|[]]]; discriminate H
                          | intros (_ & H); discriminate H].
    + intros _. split; [intros path [H|[H|[]]]; discriminate H | auto].
  - destruct (Multer.existsSync (paths b) (uploadsDir b)) eqn:Hdir; simpl.
    + split; [|split].
      * split; [intros _|reflexivity].
        repeat split; auto. exists (c :: key). split; [auto | discriminate].
      * intros port. split.
        -- intros [H|[H|[]]]; try discriminate H. inversion H; auto.
        -- intros [-> _]. right; left; reflexivity.
      * intros [H|H]; discriminate H.
    + destruct (mkdirSync b (uploadsDir b)) as [e|] eqn:Hmk; simpl.
      * split; [|split].
        -- split; [discriminate|].
           intros (_ & _ & [H|H]); discriminate H.
        -- intros port. split; [intros [H|[H|[]]]; discriminate H
                               | intros (_ & H); discriminate H].
        -- intros [H|H]; discriminate H.
      * split; [|split].
        -- split; [intros _|reflexivity].
           repeat split; auto. exists (c :: key). split; [auto | discriminate].
        -- intros port. split.
           ++ intros [H|[H|[H|[]]]]; try discriminate H. inversion H; auto.
           ++ intros [-> _]. right; right; left; reflexivity.
        -- intros [H|H]; discriminate H.
  - split; [|split].
    + split; [discriminate | intros ((k & H & _) & _); discriminate H].
    + intros port. split; [intros [H|[H|[]]]; discriminate H
                          | intros (_ & H); discriminate H].
    + intros _. split; [intros path [H|[H|[]]]; discriminate H | auto].
Qed.

End StartupFacts.

(* ================================================================= *)
(** ** Further properties of [POST /chat] and [POST /ask] *)

Section ConversionFacts.
Context {RT : Runtime}.

(** Primitive values always convert to a string, and so do the arrays
    of primitive values when joined. *)
Lemma ToString_primitive (v : value) :
  primitive v = true -> exists s, ToString v = inr s.
Proof.
  destruct v as [| |[|]| | | |]; simpl; try discriminate; eauto.
Qed.

Lemma join_with_one (conv : value -> error + jsstring) (sep : jsstring)
  (x : value) :
  join_with conv sep [x]
  = match x with
    | VUndefined | VNull => inr []
    | _ => conv x
    end.
Proof. reflexivity. Qed.

Lemma join_with_more (conv : value -> error + jsstring) (sep : jsstring)
  (x y : value) (l : list value) :
  join_with conv sep (x :: y :: l)
  = match match x with
          | VUndefined | VNull => inr []
          | _ => conv x
          end with
    | inl e => inl e
    | inr s =>
        match join_with conv sep (y :: l) with
        | inl e => inl e
        | inr t => inr (s ++ sep ++ t)
        end
    end.
Proof. reflexivity. Qed.

Lemma join_primitive (sep : jsstring) (l : list value) :
  forallb primitive l = true -> exists s, join_with ToString sep l = inr s.
Proof.
  induction l as [|x l IH]; [simpl; eauto|].
  simpl forallb. rewrite andb_true_iff. intros [Hx Hl].
  assert (Helem : exists s,
             match x with
             | VUndefined | VNull => inr []
             | _ => ToString x
             end = inr s).
  { destruct (ToString_primitive x Hx) as (s & Hs).
    destruct x; eauto. }
  destruct Helem as (s & Hs).
  destruct l as [|y l].
  - rewrite join_with_one. eauto.
  - rewrite join_with_more, Hs. destruct (IH Hl) as (t & ->). eauto.
Qed.

Lemma or_not_available_primitive (v : value) :
  primitive v = true -> exists s, or_not_available v = inr s.
Proof.
  intros Hv. unfold or_not_available, js_or.
  destruct (ToBoolean v); [now apply ToString_primitive | simpl; eauto].
Qed.

(** The prompt of [/chat] cannot be built unless [analysis.topics] is
    an array. *)
Lemma chat_system_prompt_needs_array (analysisContext : value) :
  (forall analysis topics,
      Get analysisContext (js "analysis") = inr analysis ->
      Get analysis (js "topics") = inr topics ->
      is_array topics = false) ->
  exists e, chat_system_prompt analysisContext = inl e.
Proof.
  intros Htopics. unfold chat_system_prompt.
  destruct (Get analysisContext (js "textExtraction")) as [e|te];
    simpl; [eauto|].
  destruct (Get te (js "raw")) as [e|raw]; simpl; [eauto|].
  destruct (ToString raw) as [e|s_raw]; simpl; [eauto|].
  destruct (Get analysisContext (js "analysis")) as [e|analysis] eqn:Han;
    simpl; [eauto|].
  destruct (Get analysis (js "summary")) as [e|summary]; simpl; [eauto|].
  destruct (ToString summary) as [e|s_summary]; simpl; [eauto|].
  destruct (Get analysis (js "sentiment")) as [e|sentiment]; simpl; [eauto|].
  destruct (ToString sentiment) as [e|s_sentiment]; simpl; [eauto|].
  destruct (Get analysis (js "topics")) as [e|topics] eqn:Ht; simpl; [eauto|].
  specialize (Htopics analysis topics eq_refl Ht).
  destruct topics; simpl; try discriminate; eauto.
Qed.

End ConversionFacts.

Section QuestionMore.
Context {RT : Runtime}.
Variable w : World.

(** [/chat] and [/ask] when the chat-completion API throws. *)
Lemma ask_run_completion_throws (body question analysisContext : value)
  (prompt : jsstring) (e : error) :
  Get body (js "question") = inr question ->
  Get body (js "analysisContext") = inr analysisContext ->
  ToBoolean question = true ->
  ToBoolean analysisContext = true ->
  invalid_structure analysisContext = inr false ->
  ask_system_prompt analysisContext = inr prompt ->
  chat_completion w (chat_request prompt question true) = inl e ->
  run (ask_handler w body) =
    State [ ChatCompletion (chat_request prompt question true);
            Respond 500 (ask_error_body w e) ] false.
Proof.
  intros Hq Hc Tq Tc Hi Hp Hl. run_handler.
  rewrite Hq; simpl. rewrite Hc; simpl. rewrite Tq, Tc; simpl.
  rewrite Hi; simpl. rewrite Hp; simpl. rewrite Hl; simpl. reflexivity.
Qed.

(** [/ask] when the reply does not parse and is not a string either. *)
Lemma ask_run_fallback_throws (body question analysisContext : value)
  (prompt : jsstring) (content : value) (e e' : error) :
  Get body (js "question") = inr question ->
  Get body (js "analysisContext") = inr analysisContext ->
  ToBoolean question = true ->
  ToBoolean analysisContext = true ->
  invalid_structure analysisContext = inr false ->
  ask_system_prompt analysisContext = inr prompt ->
  chat_completion w (chat_request prompt question true) = inr content ->
  parse_content content = inl e ->
  content_substring content = inl e' ->
  run (ask_handler w body) =
    State [ ChatCompletion (chat_request prompt question true);
            Respond 500 (ask_error_body w e') ] false.
Proof.
  intros Hq Hc Tq Tc Hi Hp Hl He He'. run_handler.
  rewrite Hq; simpl. rewrite Hc; simpl. rewrite Tq, Tc; simpl.
  rewrite Hi; simpl. rewrite Hp; simpl. rewrite Hl; simpl.
  rewrite He; simpl. rewrite He'; simpl. reflexivity.
Qed.

(** X14.  For a request to [/chat] with a question and a context whose
    text extraction and analysis hold only primitive values, except
    [topics], an array of primitive values, the system prompt is built
    and the chat-completion API is called once, without asking for
    JSON, with the prompt and the question.  The response is a 200
    that carries the content of the completion as it is, or, if the
    call throws, the 500 "Error processing chat request" with the
    message of the exception. *)
Theorem chat_answers_well_formed_context
  (body question analysisContext textExtraction analysis : value)
  (topics : list value) :
  Get body (js "question") = inr question ->
  Get body (js "analysisContext") = inr analysisContext ->
  ToBoolean question = true ->
  ToBoolean analysisContext = true ->
  Get analysisContext (js "textExtraction") = inr textExtraction ->
  nullish textExtraction = false ->
  (forall key v, Get textExtraction key = inr v -> primitive v = true) ->
  Get analysisContext (js "analysis") = inr analysis ->
  (forall key v,
      key <> js "topics" -> Get analysis key = inr v -> primitive v = true) ->
  Get analysis (js "topics") = inr (VArray topics) ->
  forallb primitive topics = true ->
  exists prompt,
    chat_system_prompt analysisContext = inr prompt
    /\ events (run (chat_handler w body))
       = [ ChatCompletion
             (VObject
                [ prop "messages"
                    (VArray
                       [ VObject [ prop "role" (str "system");
                                   prop "content" (VString prompt) ];
                         VObject [ prop "role" (str "user");
                                   prop "content" question ] ]);
                  prop "model" (str "gpt-3.5-turbo") ]);
           match chat_completion w (chat_request prompt question false) with
           | inr content =>
               Respond 200
                 (VObject [ prop "status" (str "success");
                            prop "response" content ])
           | inl e =>
               Respond 500
                 (VObject [ prop "status" (str "error");
                            prop "message" (str "Error processing chat request");
                            prop "error" (VString (message e)) ])
           end ].
Proof.
  intros Hq Hc Tq Tc Hte Hn Pte Han Pan Htopics Ptopics.
  assert (Hnan : nullish analysis = false)
    by (destruct analysis; simpl in *; congruence).
  assert (Hfield : forall key,
             key <> js "topics" ->
             exists v s, Get analysis key = inr v /\ ToString v = inr s).
  { intros key Hk.
    destruct (Get_not_nullish analysis key Hnan) as (v & Hv).
    destruct (ToString_primitive v (Pan key v Hk Hv)) as (s & Hs). eauto. }
  destruct (Get_not_nullish textExtraction (js "raw") Hn) as (raw & Hraw).
  destruct (ToString_primitive raw (Pte _ _ Hraw)) as (s_raw & Sraw).
  destruct (Hfield (js "summary")) as (summary & s_summary & Hsum & Ssum);
    [discriminate|].
  destruct (Hfield (js "sentiment")) as (sentiment & s_sent & Hsent & Ssent);
    [discriminate|].
  destruct (Hfield (js "language")) as (language & s_lang & Hlang & Slang);
    [discriminate|].
  destruct (join_primitive (js ", ") topics Ptopics) as (s_topics & Stopics).
  assert (Hprompt : exists prompt, chat_system_prompt analysisContext = inr prompt).
  { unfold chat_system_prompt.
    rewrite Hte; simpl. rewrite Hraw; simpl. rewrite Sraw; simpl.
    rewrite Han; simpl. rewrite Hsum; simpl. rewrite Ssum; simpl.
    rewrite Hsent; simpl. rewrite Ssent; simpl.
    rewrite Htopics; simpl. unfold call_join. rewrite Stopics; simpl.
    rewrite Hlang; simpl. rewrite Slang; simpl. eauto. }
  destruct Hprompt as (prompt & Hp). exists prompt. split; [exact Hp|].
  run_handler. rewrite Hq; simpl. rewrite Hc; simpl. rewrite Tq, Tc; simpl.
  rewrite Hp; simpl.
  destruct (chat_completion w (chat_request prompt question false));
    reflexivity.
Qed.

(** X15.  For a request to [/chat] with a question and a context, if
    [analysis.topics] is not an array the prompt cannot be built: the
    only response is the 500 "Error processing chat request" and the
    chat-completion API is not called. *)
Theorem chat_needs_topics_array (body question analysisContext : value) :
  Get body (js "question") = inr question ->
  Get body (js "analysisContext") = inr analysisContext ->
  ToBoolean question = true ->
  ToBoolean analysisContext = true ->
  (forall analysis topics,
      Get analysisContext (js "analysis") = inr analysis ->
      Get analysis (js "topics") = inr topics ->
      is_array topics = false) ->
  exists e,
    chat_system_prompt analysisContext = inl e
    /\ events (run (chat_handler w body))
       = [ Respond 500
             (VObject [ prop "status" (str "error");
                        prop "message" (str "Error processing chat request");
                        prop "error" (VString (message e)) ]) ].
Proof.
  intros Hq Hc Tq Tc Htopics.
  destruct (chat_system_prompt_needs_array analysisContext Htopics) as (e & He).
  exists e. split; [exact He|].
  rewrite (chat_run_prompt_throws w body question analysisContext e
             Hq Hc Tq Tc He).
  reflexivity.
Qed.

(** X17.  For a request to [/ask] with a question and a context whose
    text extraction and analysis count as true and hold only primitive
    values, except [topics], which counts as false or is an array of
    primitive values, the system prompt is always built (a member that
    is absent is written "Not available") and the chat-completion API
    is called exactly once, asking for a JSON object, with the prompt
    and the question. *)
Theorem ask_tolerates_missing_members
  (body question analysisContext textExtraction analysis topics : value) :
  Get body (js "question") = inr question ->
  Get body (js "analysisContext") = inr analysisContext ->
  ToBoolean question = true ->
  ToBoolean analysisContext = true ->
  Get analysisContext (js "textExtraction") = inr textExtraction ->
  ToBoolean textExtraction = true ->
  (forall key v, Get textExtraction key = inr v -> primitive v = true) ->
  Get analysisContext (js "analysis") = inr analysis ->
  ToBoolean analysis = true ->
  (forall key v,
      key <> js "topics" -> Get analysis key = inr v -> primitive v = true) ->
  Get analysis (js "topics") = inr topics ->
  (ToBoolean topics = false
   \/ exists elements,
        topics = VArray elements /\ forallb primitive elements = true) ->
  exists prompt,
    ask_system_prompt analysisContext = inr prompt
    /\ llm_calls (run (ask_handler w body)) = 1
    /\ In (ChatCompletion
             (VObject
                [ prop "messages"
                    (VArray
                       [ VObject [ prop "role" (str "system");
                                   prop "content" (VString prompt) ];
                         VObject [ prop "role" (str "user");
                                   prop "content" question ] ]);
                  prop "model" (str "gpt-3.5-turbo");
                  prop "response_format"
                    (VObject [ prop "type" (str "json_object") ]) ]))
          (events (run (ask_handler w body))).
Proof.
  intros Hq Hc Tq Tc Hte Tte Pte Han Tan Pan Htopics Ptopics.
  pose proof (truthy_not_nullish _ Tte) as Nte.
  pose proof (truthy_not_nullish _ Tan) as Nan.
  assert (Fte : forall key,
             exists v s, Get textExtraction key = inr v
                         /\ or_not_available v = inr s).
  { intros key. destruct (Get_not_nullish textExtraction key Nte) as (v & Hv).
    destruct (or_not_available_primitive v (Pte key v Hv)) as (s & Hs). eauto. }
  assert (Fan : forall key,
             key <> js "topics" ->
             exists v s, Get analysis key = inr v
                         /\ or_not_available v = inr s).
  { intros key Hk. destruct (Get_not_nullish analysis key Nan) as (v & Hv).
    destruct (or_not_available_primitive v (Pan key v Hk Hv)) as (s & Hs).
    eauto. }
  destruct (Fte (js "raw")) as (raw & s_raw & Hraw & Sraw).
  destruct (Fte (js "wordCount")) as (wc & s_wc & Hwc & Swc).
  destruct (Fte (js "characterCount")) as (cc & s_cc & Hcc & Scc).
  destruct (Fan (js "summary")) as (summary & s_summary & Hsum & Ssum);
    [discriminate|].
  destruct (Fan (js "sentiment")) as (sentiment & s_sent & Hsent & Ssent);
    [discriminate|].
  destruct (Fan (js "language")) as (language & s_lang & Hlang & Slang);
    [discriminate|].
  assert (Hprompt : exists prompt, ask_system_prompt analysisContext = inr prompt).
  { unfold ask_system_prompt.
    rewrite Hte; simpl. rewrite Hraw; simpl. rewrite Sraw; simpl.
    rewrite Han; simpl. rewrite Hsum; simpl. rewrite Ssum; simpl.
    rewrite Hsent; simpl. rewrite Ssent; simpl.
    rewrite Htopics; simpl.
    destruct Ptopics as [Hf | (elements & -> & Hel)].
    - rewrite Hf; simpl.
      unfold or_not_available at 1, js_or. rewrite Hf; simpl.
      rewrite Hlang; simpl. rewrite Slang; simpl.
      rewrite Hwc; simpl. rewrite Swc; simpl.
      rewrite Hcc; simpl. rewrite Scc; simpl. eauto.
    - simpl.
      destruct (join_primitive (js ", ") elements Hel) as (s & Hs).
      rewrite Hs; simpl.
      destruct (or_not_available_primitive (VString s) eq_refl) as (t & Ht).
      rewrite Ht; simpl.
      rewrite Hlang; simpl. rewrite Slang; simpl.
      rewrite Hwc; simpl. rewrite Swc; simpl.
      rewrite Hcc; simpl. rewrite Scc; simpl. eauto. }
  destruct Hprompt as (prompt & Hp). exists prompt. split; [exact Hp|].
  assert (Hi : invalid_structure analysisContext = inr false)
    by (rewrite (invalid_structure_members _ _ _ Hte Han), Tte, Tan;
        reflexivity).
  run_handler. rewrite Hq; simpl. rewrite Hc; simpl. rewrite Tq, Tc; simpl.
  rewrite Hi; simpl. rewrite Hp; simpl.
  destruct (chat_completion w _) as [e|content]; simpl;
    [split; [reflexivity | left; reflexivity]|].
  destruct (parse_content content); simpl;
    [|split; [reflexivity | left; reflexivity]].
  destruct (content_substring content); simpl;
    split; try reflexivity; left; reflexivity.
Qed.

End QuestionMore.

Section AskOutcomes.
Context {RT : Runtime}.
Variable w : World.

(** X18.  Whenever [/ask] called the chat-completion API and the
    content of the completion parses, the parsed value is returned as
    the analysis of a 200 response as it is: its shape is not
    checked. *)
Theorem ask_passes_parsed_reply_on (body request content analysis : value) :
  In (ChatCompletion request) (events (run (ask_handler w body))) ->
  chat_completion w request = inr content ->
  parse_content content = inr analysis ->
  exists question,
    Get body (js "question") = inr question
    /\ responses (run (ask_handler w body))
       = [ (200, VObject [ prop "status" (str "success");
                           prop "timestamp" (VString (now w));
                           prop "question" question;
                           prop "analysis" analysis ]) ].
Proof.
  intros Hin Hl He.
  destruct (ask_completion_inv w body request Hin)
    as (question & analysisContext & prompt
        & Hq & Hc & Tq & Tc & Hi & Hp & ->).
  exists question. split; [exact Hq|].
  rewrite (ask_run_parsed w body question analysisContext prompt content
             analysis Hq Hc Tq Tc Hi Hp Hl He).
  reflexivity.
Qed.

(** X19.  Whenever the chat-completion call of [/ask] throws, the only
    response is the 500 "Error processing question" with the name and
    the message of the exception. *)
Theorem ask_reports_completion_failure (body request : value) (e : error) :
  In (ChatCompletion request) (events (run (ask_handler w body))) ->
  chat_completion w request = inl e ->
  responses (run (ask_handler w body))
  = [ (500, VObject [ prop "status" (str "error");
                      prop "message" (str "Error processing question");
                      prop "error"
                        (VObject [ prop "type" (VString (name e));
                                   prop "message" (VString (message e));
                                   prop "timestamp" (VString (now w)) ]) ]) ].
Proof.
  intros Hin Hl.
  destruct (ask_completion_inv w body request Hin)
    as (question & analysisContext & prompt
        & Hq & Hc & Tq & Tc & Hi & Hp & ->).
  rewrite (ask_run_completion_throws w body question analysisContext prompt e
             Hq Hc Tq Tc Hi Hp Hl).
  reflexivity.
Qed.

(** X20.  The recovery of [/ask] needs the content to be a string: when
    the content of the completion is anything else and does not parse,
    building the degraded answer throws a [TypeError] and the only
    response is the 500 "Error processing question". *)
Theorem ask_fallback_needs_string (body request content : value) (e : error) :
  In (ChatCompletion request) (events (run (ask_handler w body))) ->
  chat_completion w request = inr content ->
  parse_content content = inl e ->
  (forall reply, content <> VString reply) ->
  exists e',
    name e' = js "TypeError"
    /\ responses (run (ask_handler w body))
       = [ (500, VObject [ prop "status" (str "error");
                           prop "message" (str "Error processing question");
                           prop "error"
                             (VObject [ prop "type" (VString (name e'));
                                        prop "message" (VString (message e'));
                                        prop "timestamp" (VString (now w)) ]) ]) ].
Proof.
  intros Hin Hl He Hns.
  destruct (ask_completion_inv w body request Hin)
    as (question & analysisContext & prompt
        & Hq & Hc & Tq & Tc & Hi & Hp & ->).
  assert (Hsub : exists e', name e' = js "TypeError"
                            /\ content_substring content = inl e').
  { destruct content as [| | | |s| |]; simpl;
      try (eexists; split; [|reflexivity]; reflexivity).
    now elim (Hns s). }
  destruct Hsub as (e' & Hname & He').
  exists e'. split; [exact Hname|].
  rewrite (ask_run_fallback_throws w body question analysisContext prompt
             content e e' Hq Hc Tq Tc Hi Hp Hl He He').
  reflexivity.
Qed.

(** X21.  The answer of the degraded response is bounded whatever the
    length of the reply: it has the 68 code units of the prefix, at
    most 500 of the reply and the 3 dots. *)
Theorem ask_fallback_answer_bounded (body request : value)
  (reply : jsstring) (e : error) :
  In (ChatCompletion request) (events (run (ask_handler w body))) ->
  chat_completion w request = inr (VString reply) ->
  JSON_parse reply = inl e ->
  exists status payload analysis answer,
    responses (run (ask_handler w body)) = [ (status, payload) ]
    /\ Get payload (js "analysis") = inr analysis
    /\ Get analysis (js "answer") = inr (VString answer)
    /\ List.length answer = 68 + Nat.min 500 (List.length reply) + 3
    /\ List.length answer <= 571.
Proof.
  intros Hin Hl He.
  destruct (ask_completion_inv w body request Hin)
    as (question & analysisContext & prompt
        & Hq & Hc & Tq & Tc & Hi & Hp & ->).
  rewrite (ask_run_parse_failure w body question analysisContext prompt reply e
             Hq Hc Tq Tc Hi Hp Hl He).
  eexists _, _, _, _.
  split; [reflexivity|]. split; [reflexivity|]. split; [reflexivity|].
  unfold JsString.substring0.
  rewrite !length_app, length_firstn.
  change (List.length fallback_prefix) with 68.
  change (List.length (js "...")) with 3. lia.
Qed.

End AskOutcomes.

Section ExactlyOnce.
Context {RT : Runtime}.
Variable w : World.




End ExactlyOnce.

Section UploadThenChat.
Context {RT : Runtime}.

(** X16.  A success payload of [/upload] whose analysis has no array
    under [topics] (the reply of the model is passed on unchecked)
    cannot be used with [/chat]: sent back as the context of a
    question, its [data] is answered by the 500 "Error processing chat
    request", without any call to the chat-completion API. *)
Theorem upload_data_without_topics_fails_chat (w : World)
  (err : option upload_error) (file : option File)
  (payload data analysis topics : value) :
  In (200, payload) (responses (run (upload_handler w err file))) ->
  Get payload (js "data") = inr data ->
  Get data (js "analysis") = inr analysis ->
  Get analysis (js "topics") = inr topics ->
  is_array topics = false ->
  forall (w' : World) (question : value),
    ToBoolean question = true ->
    exists e,
      events (run (chat_handler w'
                     (VObject [ prop "question" question;
                                prop "analysisContext" data ])))
      = [ Respond 500
            (VObject [ prop "status" (str "error");
                       prop "message" (str "Error processing chat request");
                       prop "error" (VString (message e)) ]) ].
Proof.
  intros Hin Hd Ha Ht Harr w' question Tq.
  destruct (upload_success_inv w err file payload Hin)
    as (f & text & content & parsed & _ & _ & _ & _ & _ & _ & _ & _ & ->).
  simpl in Hd. inversion Hd; subst data. clear Hd.
  assert (Htopics : forall analysis0 topics0,
             Get (upload_data w f text parsed) (js "analysis") = inr analysis0 ->
             Get analysis0 (js "topics") = inr topics0 ->
             is_array topics0 = false) by congruence.
  destruct (chat_system_prompt_needs_array _ Htopics) as (e & He).
  exists e.
  rewrite (chat_run_prompt_throws w' _ question (upload_data w f text parsed) e);
    auto; reflexivity.
Qed.

End UploadThenChat.

(* ================================================================= *)
(** ** The further properties on the example requests *)

Section MembersFacts.
Context {RT : Runtime}.

(** Objects whose members are all primitive, but possibly one. *)
Lemma members_primitive_but (except : jsstring)
  (props : list (jsstring * value)) :
  forallb (fun kv => JsString.eqb (fst kv) except || primitive (snd kv)) props
    = true ->
  forall key v,
    key <> except -> Get (VObject props) key = inr v -> primitive v = true.
Proof.
  intros Hall key v Hne. simpl. intros [= <-].
  induction props as [|[k x] rest IH]; simpl in *; [reflexivity|].
  apply andb_true_iff in Hall. destruct Hall as [Hx Hrest].
  destruct (JsString.eqb k key) eqn:E; [|now apply IH].
  apply JsStringFacts.eqb_eq in E. subst k.
  apply orb_true_iff in Hx. destruct Hx as [Hx|Hx]; [|exact Hx].
  apply JsStringFacts.eqb_eq in Hx. congruence.
Qed.

Lemma members_primitive (props : list (jsstring * value)) :
  forallb (fun kv => primitive (snd kv)) props = true ->
  forall key v, Get (VObject props) key = inr v -> primitive v = true.
Proof.
  intros Hall key v. simpl. intros [= <-].
  induction props as [|[k x] rest IH]; simpl in *; [reflexivity|].
  apply andb_true_iff in Hall. destruct Hall as [Hx Hrest].
  destruct (JsString.eqb k key); [exact Hx | now apply IH].
Qed.

End MembersFacts.

Section EvaluatedMore.

Import Examples MoreExamples.

Let rt : Runtime := ExampleRuntime.runtime.
#[local] Existing Instance ExampleRuntime.runtime.

(** X1 on a file too large for multer. *)
Lemma upload_rejected_outright_witness :
  let err := Some (MulterError (Error (js "MulterError") (js "File too large"))) in
  exists body,
    events (run (@upload_handler rt blank_world err None)) = [ Respond 400 body ]
    /\ Get body (js "status") = inr (str "error")
    /\ Get body (js "message") = inr (str "File upload error").
Proof.
  apply (@upload_rejected_outright rt blank_world
           (Some (MulterError (Error (js "MulterError") (js "File too large"))))
           None).
  left. discriminate.
Defined.

(** X2 on an upload whose analysis is refused by the API. *)
Lemma upload_failure_reports_error_witness :
  exists f e,
    Some image = Some f
    /\ processing_error_body failing_world api_error
       = VObject [ prop "status" (str "error");
                   prop "message" (str "Error processing image");
                   prop "error"
                     (VObject [ prop "type" (VString (name e));
                                prop "details" (VString (message e));
                                prop "timestamp" (VString (now failing_world)) ]) ]
    /\ (fs_access failing_world (path f) = Some e
        \/ createWorker failing_world (js "eng") = Some e
        \/ recognize failing_world (path f) = inl e
        \/ exists text,
             recognize failing_world (path f) = inr text
             /\ (chat_completion failing_world
                   (chat_request upload_system_prompt (VString text) true)
                 = inl e
                 \/ exists content,
                      chat_completion failing_world
                        (chat_request upload_system_prompt (VString text) true)
                      = inr content
                      /\ parse_content content = inl e)).
Proof.
  apply (@upload_failure_reports_error rt failing_world None (Some image)).
  vm_compute. left. reflexivity.
Defined.

(** X4 on the same upload, and on one whose worker cannot start. *)
Lemma upload_release_elsewhere_witness :
  (terminations (run (@upload_handler rt failing_world None (Some image)))
   = workers_created (run (@upload_handler rt failing_world None (Some image)))
   /\ workers_created (run (@upload_handler rt failing_world None (Some image)))
      <= 1).
Proof.
  apply (@upload_release_elsewhere rt failing_world None (Some image)).
  intros f text _ [= <-]. vm_compute. discriminate.
Defined.


(** X7 on the readable image. *)
Lemma upload_words_at_most_characters_witness :
  exists raw words characters file_info analysis,
    upload_success json_world image unicode_text parsed_json_reply
    = VObject
        [ prop "status" (str "success");
          prop "message" (str "Image processed successfully");
          prop "data"
            (VObject
               [ prop "file" file_info;
                 prop "textExtraction"
                   (VObject
                      [ prop "raw" (VString raw);
                        prop "wordCount" (VNumber (number_of_nat words));
                        prop "characterCount"
                          (VNumber (number_of_nat characters)) ]);
                 prop "analysis" analysis ]) ]
    /\ words <= characters.
Proof.
  apply (@upload_words_at_most_characters rt json_world None (Some image)).
  vm_compute. left. reflexivity.
Defined.

(** X14 on a well-formed context. *)
Lemma chat_answers_well_formed_context_witness :
  exists prompt,
    chat_system_prompt good_context = inr prompt
    /\ events (run (@chat_handler rt prose_world (request a_question good_context)))
       = [ ChatCompletion
             (VObject
                [ prop "messages"
                    (VArray
                       [ VObject [ prop "role" (str "system");
                                   prop "content" (VString prompt) ];
                         VObject [ prop "role" (str "user");
                                   prop "content" a_question ] ]);
                  prop "model" (str "gpt-3.5-turbo") ]);
           match chat_completion prose_world
                   (chat_request prompt a_question false) with
           | inr content =>
               Respond 200
                 (VObject [ prop "status" (str "success");
                            prop "response" content ])
           | inl e =>
               Respond 500
                 (VObject [ prop "status" (str "error");
                            prop "message" (str "Error processing chat request");
                            prop "error" (VString (message e)) ])
           end ].
Proof.
  eapply (@chat_answers_well_formed_context rt prose_world
            (request a_question good_context) a_question good_context);
    try reflexivity.
  - apply members_primitive. reflexivity.
  - apply (members_primitive_but (js "topics")). reflexivity.
Defined.

(** X15 on a context whose analysis has no topics. *)
Lemma chat_needs_topics_array_witness :
  exists e,
    chat_system_prompt context_without_topics = inl e
    /\ events (run (@chat_handler rt prose_world
                      (request a_question context_without_topics)))
       = [ Respond 500
             (VObject [ prop "status" (str "error");
                        prop "message" (str "Error processing chat request");
                        prop "error" (VString (message e)) ]) ].
Proof.
  apply (@chat_needs_topics_array rt prose_world
           (request a_question context_without_topics)
           a_question context_without_topics);
    try reflexivity.
  intros analysis topics [= <-] [= <-]. reflexivity.
Defined.

(** X16 on an upload whose analysis has no topics. *)
Lemma upload_data_without_topics_fails_chat_witness :
  exists e,
    events (run (@chat_handler rt prose_world
                   (VObject
                      [ prop "question" a_question;
                        prop "analysisContext"
                          (upload_data stamped_world image unicode_text
                             parsed_stamped_reply) ])))
    = [ Respond 500
          (VObject [ prop "status" (str "error");
                     prop "message" (str "Error processing chat request");
                     prop "error" (VString (message e)) ]) ].
Proof.
  refine (@upload_data_without_topics_fails_chat rt stamped_world None
            (Some image)
            (upload_success stamped_world image unicode_text
               parsed_stamped_reply)
            (upload_data stamped_world image unicode_text parsed_stamped_reply)
            (VObject (set_property (spread parsed_stamped_reply)
                        (js "timestamp") (timestamp stamped_world)))
            VUndefined _ _ _ _ _ prose_world a_question eq_refl).
  - vm_compute. left. reflexivity.
  - reflexivity.
  - reflexivity.
  - reflexivity.
  - reflexivity.
Defined.

(** X17 on a context whose sub-objects are empty. *)
Lemma ask_tolerates_missing_members_witness :
  exists prompt,
    ask_system_prompt hollow_context = inr prompt
    /\ llm_calls (run (@ask_handler rt prose_world
                         (request a_question hollow_context))) = 1
    /\ In (ChatCompletion
             (VObject
                [ prop "messages"
                    (VArray
                       [ VObject [ prop "role" (str "system");
                                   prop "content" (VString prompt) ];
                         VObject [ prop "role" (str "user");
                                   prop "content" a_question ] ]);
                  prop "model" (str "gpt-3.5-turbo");
                  prop "response_format"
                    (VObject [ prop "type" (str "json_object") ]) ]))
          (events (run (@ask_handler rt prose_world
                          (request a_question hollow_context)))).
Proof.
  eapply (@ask_tolerates_missing_members rt prose_world
            (request a_question hollow_context) a_question hollow_context
            (VObject []) (VObject []) VUndefined);
    try reflexivity.
  - apply members_primitive. reflexivity.
  - apply (members_primitive_but (js "topics")). reflexivity.
  - left. reflexivity.
Defined.

(** X18 on a reply in JSON. *)
Lemma ask_passes_parsed_reply_on_witness :
  exists question,
    Get (request a_question good_context) (js "question") = inr question
    /\ responses (run (@ask_handler rt json_world
                         (request a_question good_context)))
       = [ (200, VObject [ prop "status" (str "success");
                           prop "timestamp" (VString (now json_world));
                           prop "question" question;
                           prop "analysis" parsed_json_reply ]) ].
Proof.
  eapply (@ask_passes_parsed_reply_on rt json_world
            (request a_question good_context) _ (VString json_reply)).
  - vm_compute. left. reflexivity.
  - reflexivity.
  - vm_compute. reflexivity.
Defined.

(** X19 on an API that refuses the call. *)
Lemma ask_reports_completion_failure_witness :
  responses (run (@ask_handler rt failing_world
                    (request a_question good_context)))
  = [ (500, VObject [ prop "status" (str "error");
                      prop "message" (str "Error processing question");
                      prop "error"
                        (VObject [ prop "type" (VString (name api_error));
                                   prop "message" (VString (message api_error));
                                   prop "timestamp"
                                     (VString (now failing_world)) ]) ]) ].
Proof.
  eapply (@ask_reports_completion_failure rt failing_world
            (request a_question good_context)).
  - vm_compute. left. reflexivity.
  - reflexivity.
Defined.

(** X20 on a completion without content. *)
Lemma ask_fallback_needs_string_witness :
  exists e',
    name e' = js "TypeError"
    /\ responses (run (@ask_handler rt silent_world
                         (request a_question good_context)))
       = [ (500, VObject [ prop "status" (str "error");
                           prop "message" (str "Error processing question");
                           prop "error"
                             (VObject [ prop "type" (VString (name e'));
                                        prop "message" (VString (message e'));
                                        prop "timestamp"
                                          (VString (now silent_world)) ]) ]) ].
Proof.
  eapply (@ask_fallback_needs_string rt silent_world
            (request a_question good_context) _ VUndefined
            ExampleRuntime.syntax_error).
  - vm_compute. left. reflexivity.
  - reflexivity.
  - vm_compute. reflexivity.
  - discriminate.
Defined.

(** X21 on a reply in prose. *)
Lemma ask_fallback_answer_bounded_witness :
  exists status payload analysis answer,
    responses (run (@ask_handler rt prose_world
                      (request a_question good_context)))
    = [ (status, payload) ]
    /\ Get payload (js "analysis") = inr analysis
    /\ Get analysis (js "answer") = inr (VString answer)
    /\ List.length answer = 68 + Nat.min 500 (List.length prose_reply) + 3
    /\ List.length answer <= 571.
Proof.
  eapply (@ask_fallback_answer_bounded rt prose_world
            (request a_question good_context) _ prose_reply
            ExampleRuntime.syntax_error).
  - vm_compute. left. reflexivity.
  - reflexivity.
  - vm_compute. reflexivity.
Defined.

End EvaluatedMore.
